(** * A shallow embedding of localsend-rs: protocol types, routes, the
    multicast scanner and the receive engine of the HTTP server. *)

From Stdlib Require Import String Ascii List ZArith NArith Bool Lia Sorted.
Import ListNotations.
Open Scope string_scope.

(** ** Rust's [Result] and a small error monad *)

Inductive result (A E : Type) : Type :=
| Ok (a : A)
| Err (e : E).
Arguments Ok {A E} a.
Arguments Err {A E} e.

Definition bind {A B E} (r : result A E) (k : A -> result B E) : result B E :=
  match r with
  | Ok a => k a
  | Err e => Err e
  end.

Notation "x <- r ;; k" := (bind r (fun x => k))
  (at level 61, r at next level, right associativity).

(** [Option::ok_or(e)?] *)
Definition ok_or {A E} (o : option A) (e : E) : result A E :=
  match o with
  | Some a => Ok a
  | None => Err e
  end.

(** ** localsend-proto/src/constants.rs *)

Definition PROTOCOL_VERSION_2 : string := "2.0".
Definition PROTOCOL_VERSION_1 : string := "1.0".
Definition FALLBACK_PROTOCOL_VERSION : string := PROTOCOL_VERSION_1.
Definition DEFAULT_PORT : Z := 53317.

(** [u16] and [u64] values are [Z]; these are their ranges. *)
Definition u16_ok (z : Z) : bool := (0 <=? z)%Z && (z <=? 65535)%Z.
Definition u64_ok (z : Z) : bool := (0 <=? z)%Z && (z <? 2 ^ 64)%Z.

(** Decimal rendering of an unsigned integer ([Display] for [u16]). *)
Fixpoint digits_of (fuel : nat) (n : N) (acc : string) : string :=
  match fuel with
  | O => acc
  | S f =>
      let acc' := String (ascii_of_N (48 + N.modulo n 10)) acc in
      if (n <? 10)%N then acc' else digits_of f (N.div n 10) acc'
  end.
Definition string_of_Z (z : Z) : string := digits_of 25 (Z.to_N z) EmptyString.

(** ** localsend-proto/src/device.rs *)

Inductive DeviceType := Mobile | Desktop | Web | Headless | Server.
Definition DeviceType_default : DeviceType := Desktop.

Definition DeviceType_eqb (a b : DeviceType) : bool :=
  match a, b with
  | Mobile, Mobile | Desktop, Desktop | Web, Web
  | Headless, Headless | Server, Server => true
  | _, _ => false
  end.

(** Modelled from the spec: [dto/protocol_type.rs] (the [ProtocolType] enum)
    is not among the sources; the spec (4.A) gives
    [protocol ∈ {http,https}] on the wire, as a lowercase-renamed enum. *)
Inductive ProtocolType := Http | Https.

Definition ProtocolType_eqb (a b : ProtocolType) : bool :=
  match a, b with
  | Http, Http | Https, Https => true
  | _, _ => false
  end.

Module Device.
Record t := mk {
    ip : string;
    version : string;
    port : Z;
    https : bool;
    fingerprint : string;
    alias : string;
    device_model : option string;
    device_type : DeviceType;
    download : bool
  }.
End Device.

Definition option_eqb {A} (eqb : A -> A -> bool) (x y : option A) : bool :=
  match x, y with
  | Some a, Some b => eqb a b
  | None, None => true
  | _, _ => false
  end.

(** [#[derive(PartialEq)]] on [Device]. *)
Definition Device_eqb (a b : Device.t) : bool :=
  String.eqb (Device.ip a) (Device.ip b)
  && String.eqb (Device.version a) (Device.version b)
  && Z.eqb (Device.port a) (Device.port b)
  && Bool.eqb (Device.https a) (Device.https b)
  && String.eqb (Device.fingerprint a) (Device.fingerprint b)
  && String.eqb (Device.alias a) (Device.alias b)
  && option_eqb String.eqb (Device.device_model a) (Device.device_model b)
  && DeviceType_eqb (Device.device_type a) (Device.device_type b)
  && Bool.eqb (Device.download a) (Device.download b).

(** ** localsend-proto/src/route.rs *)

Module ApiRoute.
Inductive t := PrepareUpload | Upload | Cancel.

Definition _v1 (self : t) : string :=
    match self with
    | PrepareUpload => "send-request"
    | Upload => "send"
    | Cancel => "cancel"
    end.

Definition _v2 (self : t) : string :=
    match self with
    | PrepareUpload => "prepare-upload"
    | Upload => "upload"
    | _ => _v1 self
    end.

Definition route (self : t) (version : string) : string :=
    let path :=
      if String.eqb version PROTOCOL_VERSION_1
      then "/v1/" ++ _v1 self
      else "/v2/" ++ _v2 self in
    "/api/localsend" ++ path.

Definition v1 (self : t) : string := route self PROTOCOL_VERSION_1.
Definition v2 (self : t) : string := route self PROTOCOL_VERSION_2.

Definition target_raw (self : t) (ip : string) (port : Z) (https : bool)
      (version : string) : string :=
    let protocol := if https then "https" else "http" in
    let route := route self version in
    protocol ++ "://" ++ ip ++ ":" ++ string_of_Z port ++ route.

Definition target (self : t) (device : Device.t) : string :=
    target_raw self (Device.ip device) (Device.port device)
      (Device.https device) (Device.version device).
End ApiRoute.

(** ** Protocol DTOs (localsend-proto/src/dto) *)

Inductive FileType := Image | Video | Pdf | Text | Apk | Other.
Definition FileType_default : FileType := Other.

Module RegisterDto.
Record t := mk {
    alias : string;
    version : option string;
    device_model : option string;
    device_type : option DeviceType;
    fingerprint : string;
    port : option Z;
    protocol : option ProtocolType;
    download : option bool
  }.

Definition to_device (self : t) (ip : string) (own_port : Z) (own_https : bool)
      : Device.t :=
    {| Device.ip := ip;
       Device.version := match version self with
                         | Some v => v
                         | None => FALLBACK_PROTOCOL_VERSION
                         end;
       Device.port := match port self with Some p => p | None => own_port end;
       Device.https := match protocol self with
                       | Some p => ProtocolType_eqb p Https
                       | None => own_https
                       end;
       Device.fingerprint := fingerprint self;
       Device.alias := alias self;
       Device.device_model := device_model self;
       Device.device_type := match device_type self with
                             | Some d => d
                             | None => DeviceType_default
                             end;
       Device.download := match download self with Some b => b | None => false end |}.

(** [impl From<Device> for RegisterDto]. *)
Definition from (value : Device.t) : t :=
    {| alias := Device.alias value;
       version := Some (Device.version value);
       device_model := Device.device_model value;
       device_type := Some (Device.device_type value);
       fingerprint := Device.fingerprint value;
       port := Some (Device.port value);
       protocol := Some (if Device.https value then Https else Http);
       download := Some (Device.download value) |}.
End RegisterDto.

Module MulticastDto.
Record t := mk {
    alias : string;
    version : option string;
    device_model : option string;
    device_type : option DeviceType;
    fingerprint : string;
    port : option Z;
    protocol : option ProtocolType;
    download : option bool;
    announcement : option bool;
    announce : option bool
  }.

Definition v1 (alias : string) (device_model : option string)
      (device_type : DeviceType) (fingerprint : string) (announcement : bool) : t :=
    {| alias := alias; version := None; device_model := device_model;
       device_type := Some device_type; fingerprint := fingerprint;
       port := None; protocol := None; download := None;
       announcement := Some announcement; announce := None |}.

Definition v2 (alias : string) (device_model : option string)
      (device_type : DeviceType) (fingerprint : string) (port : Z)
      (announcement : bool) : t :=
    {| alias := alias; version := Some PROTOCOL_VERSION_2;
       device_model := device_model; device_type := Some device_type;
       fingerprint := fingerprint; port := Some port; protocol := Some Http;
       download := None; announcement := Some announcement; announce := None |}.

Definition to_device (self : t) (ip : string) (own_port : Z) (own_https : bool)
      : Device.t :=
    {| Device.ip := ip;
       Device.version := match version self with
                         | Some v => v
                         | None => FALLBACK_PROTOCOL_VERSION
                         end;
       Device.port := match port self with Some p => p | None => own_port end;
       Device.https := match protocol self with
                       | Some p => ProtocolType_eqb p Https
                       | None => own_https
                       end;
       Device.fingerprint := fingerprint self;
       Device.alias := alias self;
       Device.device_model := device_model self;
       Device.device_type := match device_type self with
                             | Some d => d
                             | None => DeviceType_default
                             end;
       Device.download := match download self with Some b => b | None => false end |}.
End MulticastDto.

Module FileDto.
Record t := mk {
    id : string;
    file_name : string;
    size : Z;
    file_type : FileType;
    hash : option string;
    preview : option string
  }.
End FileDto.

(** ** JSON values and the serde (de)serializers

    [serde_json::to_string] followed by [serde_json::from_str] is taken at
    the level of JSON values: serialization builds a [JValue], and
    deserialization reads one back as the derived [Deserialize] impls do
    (fields by camelCase key, unknown keys ignored, a repeated key
    rejected, a missing or [null] [Option] field read as [None]). *)

#[warnings="-register-all"]
Inductive JValue :=
| JNull
| JBool (b : bool)
| JNum (n : Z)
| JStr (s : string)
| JObj (fields : list (string * JValue)).

Inductive DeError := DeErr (msg : string).

Definition ser_opt {A} (ser : A -> JValue) (o : option A) : JValue :=
  match o with
  | Some a => ser a
  | None => JNull
  end.

Definition de_string (v : JValue) : result string DeError :=
  match v with JStr s => Ok s | _ => Err (DeErr "invalid type: expected a string") end.
Definition de_bool (v : JValue) : result bool DeError :=
  match v with JBool b => Ok b | _ => Err (DeErr "invalid type: expected a boolean") end.
Definition de_u16 (v : JValue) : result Z DeError :=
  match v with
  | JNum n => if u16_ok n then Ok n else Err (DeErr "invalid value: expected u16")
  | _ => Err (DeErr "invalid type: expected u16")
  end.
Definition de_u64 (v : JValue) : result Z DeError :=
  match v with
  | JNum n => if u64_ok n then Ok n else Err (DeErr "invalid value: expected u64")
  | _ => Err (DeErr "invalid type: expected u64")
  end.

(** The value stored under key [k] of an object, if any. *)
Definition field (k : string) (fs : list (string * JValue))
    : result (option JValue) DeError :=
  match filter (fun kv => String.eqb (fst kv) k) fs with
  | [] => Ok None
  | [(_, v)] => Ok (Some v)
  | _ => Err (DeErr ("duplicate field " ++ k))
  end.

Definition req_field {A} (k : string) (fs : list (string * JValue))
    (de : JValue -> result A DeError) : result A DeError :=
  o <- field k fs ;;
  match o with
  | Some v => de v
  | None => Err (DeErr ("missing field " ++ k))
  end.

Definition opt_field {A} (k : string) (fs : list (string * JValue))
    (de : JValue -> result A DeError) : result (option A) DeError :=
  o <- field k fs ;;
  match o with
  | None | Some JNull => Ok None
  | Some v => a <- de v ;; Ok (Some a)
  end.

(** [#[serde(rename_all = "lowercase")]] on [DeviceType]. *)
Definition ser_DeviceType (d : DeviceType) : JValue :=
  JStr match d with
       | Mobile => "mobile" | Desktop => "desktop" | Web => "web"
       | Headless => "headless" | Server => "server"
       end.
Definition de_DeviceType (v : JValue) : result DeviceType DeError :=
  match v with
  | JStr "mobile" => Ok Mobile
  | JStr "desktop" => Ok Desktop
  | JStr "web" => Ok Web
  | JStr "headless" => Ok Headless
  | JStr "server" => Ok Server
  | JStr _ => Err (DeErr "unknown variant")
  | _ => Err (DeErr "invalid type: expected a string")
  end.

(** Modelled from the spec: the lowercase wire names [http] and [https]
    of [ProtocolType] (spec 4.A). *)
Definition ser_ProtocolType (p : ProtocolType) : JValue :=
  JStr match p with Http => "http" | Https => "https" end.
Definition de_ProtocolType (v : JValue) : result ProtocolType DeError :=
  match v with
  | JStr "http" => Ok Http
  | JStr "https" => Ok Https
  | JStr _ => Err (DeErr "unknown variant")
  | _ => Err (DeErr "invalid type: expected a string")
  end.

(** [#[derive(Serialize)] #[serde(rename_all = "lowercase")]] on [FileType]. *)
Definition ser_FileType (f : FileType) : JValue :=
  JStr match f with
       | Image => "image" | Video => "video" | Pdf => "pdf"
       | Text => "text" | Apk => "apk" | Other => "other"
       end.

(** [mime::Mime::from_str] (mime crate), the part the classification reads:
    a restricted-name type, ['/'], a restricted-name subtype, optionally
    followed by [';'] and parameters; type and subtype are compared in
    lowercase. Parameters are not validated here. *)
Definition is_name_char (c : ascii) : bool :=
  let n := nat_of_ascii c in
  (Nat.leb 48 n && Nat.leb n 57) || (Nat.leb 65 n && Nat.leb n 90)
  || (Nat.leb 97 n && Nat.leb n 122)
  || existsb (Ascii.eqb c) ["!"; "#"; "$"; "&"; "-"; "^"; "_"; "."; "+"]%char.

Fixpoint all_chars (p : ascii -> bool) (s : string) : bool :=
  match s with
  | EmptyString => true
  | String c s' => p c && all_chars p s'
  end.

Fixpoint split_once (sep : ascii) (s : string) : option (string * string) :=
  match s with
  | EmptyString => None
  | String c s' =>
      if Ascii.eqb c sep then Some (EmptyString, s')
      else match split_once sep s' with
           | Some (a, b) => Some (String c a, b)
           | None => None
           end
  end.

Definition lower_char (c : ascii) : ascii :=
  let n := nat_of_ascii c in
  if Nat.leb 65 n && Nat.leb n 90 then ascii_of_nat (n + 32) else c.

Fixpoint lower (s : string) : string :=
  match s with
  | EmptyString => EmptyString
  | String c s' => String (lower_char c) (lower s')
  end.

Definition restricted_name (s : string) : bool :=
  negb (String.eqb s EmptyString) && all_chars is_name_char s.

Definition Mime_from_str (s : string) : option (string * string) :=
  match split_once "/"%char s with
  | None => None
  | Some (ty, rest) =>
      let sub := match split_once ";"%char rest with
                 | Some (a, _) => a
                 | None => rest
                 end in
      if restricted_name ty && restricted_name sub
      then Some (lower ty, lower sub)
      else None
  end.

(** [impl From<Mime> for FileType]. *)
Definition FileType_from_mime (m : string * string) : FileType :=
  match m with
  | ("image", _) => Image
  | ("video", _) => Video
  | ("application", "pdf") => Pdf
  | ("text", _) => Text
  | ("application", "vnd.android.package-archive") => Apk
  | _ => Other
  end.

(** The hand-written [impl Deserialize for FileType]:
    [Mime::from_str(&String::deserialize(d)?).map(Self::from).unwrap_or_default()]. *)
Definition de_FileType (v : JValue) : result FileType DeError :=
  s <- de_string v ;;
  Ok match Mime_from_str s with
     | Some m => FileType_from_mime m
     | None => FileType_default
     end.

(** Derived [Serialize] / [Deserialize] of the DTOs, [rename_all = "camelCase"]. *)

Definition ser_RegisterDto (d : RegisterDto.t) : JValue :=
  JObj [("alias", JStr (RegisterDto.alias d));
        ("version", ser_opt JStr (RegisterDto.version d));
        ("deviceModel", ser_opt JStr (RegisterDto.device_model d));
        ("deviceType", ser_opt ser_DeviceType (RegisterDto.device_type d));
        ("fingerprint", JStr (RegisterDto.fingerprint d));
        ("port", ser_opt JNum (RegisterDto.port d));
        ("protocol", ser_opt ser_ProtocolType (RegisterDto.protocol d));
        ("download", ser_opt JBool (RegisterDto.download d))].

Definition de_RegisterDto (v : JValue) : result RegisterDto.t DeError :=
  match v with
  | JObj fs =>
      alias <- req_field "alias" fs de_string ;;
      version <- opt_field "version" fs de_string ;;
      device_model <- opt_field "deviceModel" fs de_string ;;
      device_type <- opt_field "deviceType" fs de_DeviceType ;;
      fingerprint <- req_field "fingerprint" fs de_string ;;
      port <- opt_field "port" fs de_u16 ;;
      protocol <- opt_field "protocol" fs de_ProtocolType ;;
      download <- opt_field "download" fs de_bool ;;
      Ok (RegisterDto.mk alias version device_model device_type fingerprint
            port protocol download)
  | _ => Err (DeErr "invalid type: expected struct RegisterDto")
  end.

Definition ser_MulticastDto (d : MulticastDto.t) : JValue :=
  JObj [("alias", JStr (MulticastDto.alias d));
        ("version", ser_opt JStr (MulticastDto.version d));
        ("deviceModel", ser_opt JStr (MulticastDto.device_model d));
        ("deviceType", ser_opt ser_DeviceType (MulticastDto.device_type d));
        ("fingerprint", JStr (MulticastDto.fingerprint d));
        ("port", ser_opt JNum (MulticastDto.port d));
        ("protocol", ser_opt ser_ProtocolType (MulticastDto.protocol d));
        ("download", ser_opt JBool (MulticastDto.download d));
        ("announcement", ser_opt JBool (MulticastDto.announcement d));
        ("announce", ser_opt JBool (MulticastDto.announce d))].

Definition de_MulticastDto (v : JValue) : result MulticastDto.t DeError :=
  match v with
  | JObj fs =>
      alias <- req_field "alias" fs de_string ;;
      version <- opt_field "version" fs de_string ;;
      device_model <- opt_field "deviceModel" fs de_string ;;
      device_type <- opt_field "deviceType" fs de_DeviceType ;;
      fingerprint <- req_field "fingerprint" fs de_string ;;
      port <- opt_field "port" fs de_u16 ;;
      protocol <- opt_field "protocol" fs de_ProtocolType ;;
      download <- opt_field "download" fs de_bool ;;
      announcement <- opt_field "announcement" fs de_bool ;;
      announce <- opt_field "announce" fs de_bool ;;
      Ok (MulticastDto.mk alias version device_model device_type fingerprint
            port protocol download announcement announce)
  | _ => Err (DeErr "invalid type: expected struct MulticastDto")
  end.

Definition ser_FileDto (f : FileDto.t) : JValue :=
  JObj [("id", JStr (FileDto.id f));
        ("fileName", JStr (FileDto.file_name f));
        ("size", JNum (FileDto.size f));
        ("fileType", ser_FileType (FileDto.file_type f));
        ("hash", ser_opt JStr (FileDto.hash f));
        ("preview", ser_opt JStr (FileDto.preview f))].

Definition de_FileDto (v : JValue) : result FileDto.t DeError :=
  match v with
  | JObj fs =>
      id <- req_field "id" fs de_string ;;
      file_name <- req_field "fileName" fs de_string ;;
      size <- req_field "size" fs de_u64 ;;
      file_type <- req_field "fileType" fs de_FileType ;;
      hash <- opt_field "hash" fs de_string ;;
      preview <- opt_field "preview" fs de_string ;;
      Ok (FileDto.mk id file_name size file_type hash preview)
  | _ => Err (DeErr "invalid type: expected struct FileDto")
  end.

(** Well-formed values: the integer fields are within their Rust types. *)
Definition RegisterDto_wf (d : RegisterDto.t) : bool :=
  match RegisterDto.port d with Some p => u16_ok p | None => true end.
Definition MulticastDto_wf (d : MulticastDto.t) : bool :=
  match MulticastDto.port d with Some p => u16_ok p | None => true end.
Definition FileDto_wf (f : FileDto.t) : bool := u64_ok (FileDto.size f).


(** [serde_json::to_string]: the compact JSON text of a value. *)
Definition dquote : ascii := ascii_of_nat 34.
Definition backslash : ascii := ascii_of_nat 92.
Definition dq : string := String dquote EmptyString.

Definition hex_digit (n : nat) : ascii :=
  if Nat.ltb n 10 then ascii_of_nat (48 + n) else ascii_of_nat (87 + n).

Definition escape_char (c : ascii) : string :=
  let n := nat_of_ascii c in
  let esc (x : string) := String backslash x in
  if Nat.eqb n 34 then esc dq
  else if Nat.eqb n 92 then esc (String backslash EmptyString)
  else if Nat.eqb n 10 then esc "n"
  else if Nat.eqb n 13 then esc "r"
  else if Nat.eqb n 9 then esc "t"
  else if Nat.eqb n 8 then esc "b"
  else if Nat.eqb n 12 then esc "f"
  else if Nat.ltb n 32
  then esc ("u00" ++ String (hex_digit (n / 16)) (String (hex_digit (n mod 16)) EmptyString))
  else String c EmptyString.

Fixpoint escape (s : string) : string :=
  match s with
  | EmptyString => EmptyString
  | String c s' => escape_char c ++ escape s'
  end.

Definition quoted (s : string) : string := dq ++ escape s ++ dq.

Fixpoint to_string (v : JValue) : string :=
  match v with
  | JNull => "null"
  | JBool true => "true"
  | JBool false => "false"
  | JNum n => if (n <? 0)%Z then "-" ++ string_of_Z (- n) else string_of_Z n
  | JStr s => quoted s
  | JObj fs =>
      let fix members (l : list (string * JValue)) : string :=
        match l with
        | [] => EmptyString
        | [(k, x)] => quoted k ++ ":" ++ to_string x
        | (k, x) :: l' => quoted k ++ ":" ++ to_string x ++ "," ++ members l'
        end in
      "{" ++ members fs ++ "}"
  end.

(** ** Running an operation *)

(** How an operation ends on the inputs given to it: it returns, it panics,
    or the modelled inputs (datagrams, stream chunks) run out while it is
    still running. *)
Inductive Outcome (A : Type) : Type :=
| Returned (a : A)
| Panicked
| Pending.
Arguments Returned {A} a.
Arguments Panicked {A}.
Arguments Pending {A}.

(** ** localsend-lib/src/scanner/multicast.rs *)

(** [std::io::Error]; a [serde_json::Error] converts into one ([?] in [scan]). *)
Inductive IoError :=
| IoOs (msg : string)
| IoJson (e : DeError).

Module MulticastDeviceScanner.
  (** The socket and the group address are the environment: each call
      to the socket is given its result. *)
Record t := mk {
    device : MulticastDto.t;
    announce_msg : string
  }.

Definition new (device : Device.t) (http_port : Z) : t :=
    let dto := MulticastDto.v2 (Device.alias device) (Device.device_model device)
                 Headless (Device.fingerprint device) http_port true in
    {| device := dto; announce_msg := to_string (ser_MulticastDto dto) |}.

  (** Result of [socket.send_to(...).await]. *)
Inductive SendToResult :=
  | Sent (n : nat)
  | SendFailed (e : IoError).

Definition send_announcement (self : t) (r : SendToResult) : Outcome unit :=
    let size := match r with Sent n => Some n | SendFailed _ => None end in
    if option_eqb Nat.eqb size (Some (String.length (announce_msg self)))
    then Returned tt
    else Panicked.

  (** A datagram's payload: JSON text, or bytes that are not JSON. *)
Inductive Payload :=
  | JsonText (v : JValue)
  | NotJson.

  (** [serde_json::from_slice::<RegisterDto>], its error converted by [?]. *)
Definition from_slice (p : Payload) : result RegisterDto.t IoError :=
    match p with
    | NotJson => Err (IoJson (DeErr "expected value"))
    | JsonText v =>
        match de_RegisterDto v with
        | Ok d => Ok d
        | Err e => Err (IoJson e)
        end
    end.

  (** Size of [buf] in [scan]: a datagram longer than this is cut to its
      first [buf_len] bytes by [try_recv_from]. *)
Definition buf_len : nat := 2048.

  (** Result of [socket.try_recv_from(&mut buf)]: the payload stands for
      [&buf[..size]]. *)
Inductive RecvResult :=
  | RecvFrom (payload : Payload) (ip : string) (port : Z)
  | RecvError (e : IoError).

  (** One turn of the [while] loop: whether two seconds have elapsed when
      the condition is evaluated, and what the poll returns. *)
Record Poll := mkPoll { elapsed_2s : bool; recv : RecvResult }.

Fixpoint scan_loop (self : t) (devices : list Device.t) (polls : list Poll)
      : Outcome (result (list Device.t) IoError) :=
    match polls with
    | [] => Pending
    | p :: polls' =>
        if negb (negb (elapsed_2s p) || (match devices with [] => true | _ => false end))
        then Returned (Ok devices)
        else
          match recv p with
          | RecvFrom payload ip port =>
              match from_slice payload with
              | Err e => Returned (Err e)
              | Ok register_dto =>
                  if String.eqb (RegisterDto.fingerprint register_dto)
                       (MulticastDto.fingerprint (device self))
                  then scan_loop self devices polls'
                  else
                    let dev := RegisterDto.to_device register_dto ip port false in
                    if existsb (Device_eqb dev) devices
                    then scan_loop self devices polls'
                    else scan_loop self (app devices [dev]) polls'
              end
          | RecvError _ =>
              (* tokio::time::sleep(100 ms) *)
              scan_loop self devices polls'
          end
    end.

Definition scan (self : t) (announce : SendToResult) (polls : list Poll)
      : Outcome (result (list Device.t) IoError) :=
    match send_announcement self announce with
    | Returned _ => scan_loop self [] polls
    | Panicked => Panicked
    | Pending => Pending
    end.
End MulticastDeviceScanner.

(** The serialization test of multicast_dto.rs ([test_serde_json]); in the
    expected text below every ['] stands for a double quote. *)
Fixpoint squote_to_dquote (s : string) : string :=
  match s with
  | EmptyString => EmptyString
  | String c s' =>
      String (if Nat.eqb (nat_of_ascii c) 39 then dquote else c) (squote_to_dquote s')
  end.


(** ** localsend-lib: errors and their HTTP status (server/error.rs) *)

Inductive ReceiveError :=
| EmptyFiles
| InvalidIp (ip : string)
| InvalidParameters
| InvalidRecipient
| InvalidSessionId
| InvalidServerState
| InvalidToken
| NothingSelected
| SaveFileFailed
| SessionBlocked
| SessionDeclined
| SessionNotExists
| Cancelled.

Inductive SendError :=
| Send_NothingSelected
| Rejected
| Busy
| Send_Cancelled
| NoPermission
| Aborted
| Unknown (code : Z).

(** [crate::Error]; the [Reqwest] and [WalkDir] variants carry nothing here. *)
Inductive Error :=
| Io (e : IoError)
| Reqwest
| Receive (e : ReceiveError)
| Send (e : SendError)
| WalkDir.

Definition status_of_ReceiveError (e : ReceiveError) : Z :=
  match e with
  | Cancelled => 200
  | EmptyFiles => 400
  | InvalidIp _ => 403
  | InvalidParameters => 400
  | InvalidRecipient => 409
  | InvalidServerState => 500
  | InvalidSessionId => 403
  | InvalidToken => 403
  | NothingSelected => 204
  | SaveFileFailed => 500
  | SessionBlocked => 409
  | SessionDeclined => 403
  | SessionNotExists => 409
  end.

Definition status_of_SendError (e : SendError) : Z :=
  match e with
  | NoPermission => 403
  | _ => 500
  end.

Definition status_code (e : Error) : Z :=
  match e with
  | Receive e => status_of_ReceiveError e
  | Send e => status_of_SendError e
  | _ => 500
  end.

(** ** Receive-side state (receive/*.rs, server/mod.rs) *)

Module FileStatus.
Inductive t := Queue | Skipped | Sending | Failed | Finished.
Definition eqb (a b : t) : bool :=
    match a, b with
    | Queue, Queue | Skipped, Skipped | Sending, Sending
    | Failed, Failed | Finished, Finished => true
    | _, _ => false
    end.
End FileStatus.

Module ReceiveSessionStatus.
Inductive t := Waiting | Sending.
Definition eqb (a b : t) : bool :=
    match a, b with
    | Waiting, Waiting | Sending, Sending => true
    | _, _ => false
    end.
End ReceiveSessionStatus.

(** A [HashMap<String, V>] as an association list with one entry per key. *)
Fixpoint hm_get {V} (k : string) (m : list (string * V)) : option V :=
  match m with
  | [] => None
  | (k', v) :: m' => if String.eqb k' k then Some v else hm_get k m'
  end.

Fixpoint hm_insert {V} (k : string) (v : V) (m : list (string * V))
    : list (string * V) :=
  match m with
  | [] => [(k, v)]
  | (k', v') :: m' =>
      if String.eqb k' k then (k, v) :: m' else (k', v') :: hm_insert k v m'
  end.

Module ReceivingFile.
Record t := mk {
    file : FileDto.t;
    status : FileStatus.t;
    token : option string
  }.
End ReceivingFile.

(** A [Sender<UploadProgress>] is named by a channel number. *)
Module ReceiveSession.
Record t := mk {
    session_id : string;
    status : ReceiveSessionStatus.t;
    sender : Device.t;
    files : list (string * ReceivingFile.t);
    destination_directory : string;
    progress_tx : option nat
  }.

Definition set_files (fs : list (string * ReceivingFile.t)) (s : t) : t :=
    mk (session_id s) (status s) (sender s) fs (destination_directory s) (progress_tx s).
Definition set_status (st : ReceiveSessionStatus.t) (s : t) : t :=
    mk (session_id s) st (sender s) (files s) (destination_directory s) (progress_tx s).
Definition set_progress_tx (p : option nat) (s : t) : t :=
    mk (session_id s) (status s) (sender s) (files s) (destination_directory s) p.
End ReceiveSession.

Module Settings.
Record t := mk { destination : string; quick_save : bool }.
End Settings.

(** [ServerState]: the fields the receive engine reads and writes; the UI
    channels are the inputs of [prepare_upload]. *)
Module ServerState.
Record t := mk {
    settings : Settings.t;
    receive_session : option ReceiveSession.t
  }.
Definition set_receive_session (r : option ReceiveSession.t) (s : t) : t :=
    mk (settings s) r.
End ServerState.

Module PrepareUploadRequestDto.
Record t := mk { info : RegisterDto.t; files : list (string * FileDto.t) }.
End PrepareUploadRequestDto.

Module PrepareUploadResponseDto.
Record t := mk { session_id : string; files : list (string * string) }.
End PrepareUploadResponseDto.

Module UploadProgress.
Record t := mk { file_id : string; position : Z; finish : bool }.
End UploadProgress.

(** ** The receive engine (server/controller.rs) *)

Inductive ClientMessage :=
| FilesSelected (progress_tx : nat) (files : list FileDto.t)
| Declined.

(** The UI side of [prepare_upload] when quick save is off: sending
    [SelectedFiles] fails (the [unwrap] panics), or [client_rx.recv()]
    returns a message or [None] (channel closed). *)
Inductive UiReply :=
| UiSendFailed
| UiRecv (m : option ClientMessage).

(** [prepare_upload]. [lock_busy] is the outcome of [state.try_lock()];
    when it succeeds the lock is held to the end, so the call is one atomic
    step on the state. [session_id] and [uuid i] are the UUIDs the call
    draws (the [i]-th token for the [i]-th selected file). *)
Definition prepare_upload (lock_busy : bool) (st : ServerState.t) (addr_ip : string)
    (dto : PrepareUploadRequestDto.t) (session_id : string) (ui : UiReply)
    (uuid : nat -> string)
    : Outcome (result PrepareUploadResponseDto.t Error) * ServerState.t :=
  if lock_busy then (Returned (Err (Receive SessionBlocked)), st) else
  match ServerState.receive_session st with
  | Some _ => (Returned (Err (Receive SessionBlocked)), st)
  | None =>
  match PrepareUploadRequestDto.files dto with
  | [] => (Returned (Err (Receive EmptyFiles)), st)
  | _ =>
  let settings := ServerState.settings st in
  let rs0 := {| ReceiveSession.session_id := session_id;
                ReceiveSession.status := ReceiveSessionStatus.Waiting;
                ReceiveSession.sender :=
                  RegisterDto.to_device (PrepareUploadRequestDto.info dto)
                    addr_ip DEFAULT_PORT false;
                ReceiveSession.files := [];
                ReceiveSession.destination_directory := Settings.destination settings;
                ReceiveSession.progress_tx := None |} in
  let st1 := ServerState.set_receive_session (Some rs0) st in
  let files := map snd (PrepareUploadRequestDto.files dto) in
  let reply :=
    if Settings.quick_save settings then Returned (Some (None, Some files))
    else match ui with
         | UiSendFailed => Panicked
         | UiRecv None => Returned None
         | UiRecv (Some (FilesSelected tx fs)) => Returned (Some (Some tx, Some fs))
         | UiRecv (Some Declined) => Returned (Some (None, None))
         end in
  match reply with
  | Panicked => (Panicked, st1)
  | Pending => (Pending, st1)
  | Returned None => (Returned (Err (Receive NothingSelected)), st1)
  | Returned (Some (progress_tx, selection)) =>
      let rs1 := ReceiveSession.set_progress_tx progress_tx rs0 in
      match selection with
      | None =>
          (Returned (Err (Receive SessionDeclined)), ServerState.set_receive_session None st1)
      | Some [] =>
          (Returned (Err (Receive NothingSelected)), ServerState.set_receive_session None st1)
      | Some selection =>
          let fix issue (i : nat) (l : list FileDto.t) (m : list (string * ReceivingFile.t)) :=
            match l with
            | [] => m
            | f :: l' =>
                issue (S i) l'
                  (hm_insert (FileDto.id f)
                     (ReceivingFile.mk f FileStatus.Queue (Some (uuid i))) m)
            end in
          let rfiles := issue 0 selection [] in
          let rs2 := ReceiveSession.set_files rfiles
                       (ReceiveSession.set_status ReceiveSessionStatus.Sending rs1) in
          let tokens := map (fun '(id, f) =>
                          (id, match ReceivingFile.token f with Some t => t | None => EmptyString end))
                          rfiles in
          (Returned (Ok (PrepareUploadResponseDto.mk (ReceiveSession.session_id rs2) tokens)),
           ServerState.set_receive_session (Some rs2) st1)
      end
  end
  end
  end.

(** The task spawned by the drop of [Guard] when [prepare_upload] returns. *)
Definition guard_cleanup (st : ServerState.t) : ServerState.t :=
  match ServerState.receive_session st with
  | Some s =>
      if ReceiveSessionStatus.eqb (ReceiveSession.status s) ReceiveSessionStatus.Waiting
      then ServerState.set_receive_session None st
      else st
  | None => st
  end.

(** *** [upload], first part: the checks under the state lock *)

Definition upload_check (rs : ReceiveSession.t) (addr_ip : string)
    (query : list (string * string)) (v2 : bool)
    : result (string * ReceivingFile.t) ReceiveError :=
  _ <- (if String.eqb addr_ip (Device.ip (ReceiveSession.sender rs))
        then Ok tt else Err (InvalidIp addr_ip)) ;;
  _ <- (if ReceiveSessionStatus.eqb (ReceiveSession.status rs) ReceiveSessionStatus.Sending
        then Ok tt else Err InvalidRecipient) ;;
  file_id <- ok_or (hm_get "fileId" query) InvalidParameters ;;
  token <- ok_or (hm_get "token" query) InvalidParameters ;;
  _ <- (if v2 then
          session_id <- ok_or (hm_get "sessionId" query) InvalidParameters ;;
          (if String.eqb session_id (ReceiveSession.session_id rs)
           then Ok tt else Err InvalidSessionId)
        else Ok tt) ;;
  receiving_file <- ok_or (hm_get file_id (ReceiveSession.files rs)) InvalidToken ;;
  receiving_file_token <- ok_or (ReceivingFile.token receiving_file) InvalidToken ;;
  if String.eqb token receiving_file_token
  then Ok (file_id, receiving_file)
  else Err InvalidToken.

(** What the first part hands to the streaming part once the lock is released. *)
Module Accepted.
Record t := mk {
    file_id : string;
    receiving_file : ReceivingFile.t;
    destination : string;
    progress_tx : option nat
  }.
End Accepted.

Definition upload_begin (st : ServerState.t) (addr_ip : string)
    (query : list (string * string)) (v2 : bool)
    : result Accepted.t Error * ServerState.t :=
  match ServerState.receive_session st with
  | None => (Err (Receive SessionNotExists), st)
  | Some rs =>
      match upload_check rs addr_ip query v2 with
      | Err e => (Err (Receive e), st)
      | Ok (file_id, rf) =>
          (* status = Sending; token = None *)
          let rf' := ReceivingFile.mk (ReceivingFile.file rf) FileStatus.Sending None in
          let rs' := ReceiveSession.set_files
                       (hm_insert file_id rf' (ReceiveSession.files rs)) rs in
          (Ok (Accepted.mk file_id rf' (ReceiveSession.destination_directory rs)
                 (ReceiveSession.progress_tx rs)),
           ServerState.set_receive_session (Some rs') st)
      end
  end.

(** *** [upload], second part: [save_file], run without the lock

    The destination directory is a list of file paths. The request body
    stream and the file answer each suspension: a [reader.read] returns
    [Ok(len)] ([Ok(0)] at the end of the body, as also when the modelled
    chunks run out) or an error; each [file_buf.write] returns [Ok] or an
    error. [create_result] is the result of [create_dir_all]/[File::create],
    [flush_result] that of [file_buf.flush()]. *)

Inductive ReadResult := ReadOk (len : nat) | ReadErr (e : IoError).
Inductive WriteResult := WriteOk | WriteErr (e : IoError).

Module SaveEnv.
Record t := mk {
    create_result : result unit IoError;
    chunks : list (ReadResult * WriteResult);
    flush_result : result unit IoError
  }.
End SaveEnv.

Definition BUF_SIZE : nat := 1024 * 8.

(** [Path::new(destination).join(file_name)]. *)
Definition path_join (dir name : string) : string :=
  match name with
  | String c _ => if Nat.eqb (nat_of_ascii c) 47 then name else dir ++ "/" ++ name
  | EmptyString => dir ++ "/" ++ name
  end.

Definition fs_create (path : string) (fs : list string) : list string :=
  if existsb (String.eqb path) fs then fs else app fs [path].
Definition fs_remove (path : string) (fs : list string) : list string :=
  filter (fun p => negb (String.eqb p path)) fs.

Definition save_result := (Outcome (result unit Error) * list string * list UploadProgress.t)%type.

(** The [loop] of [save_file]. *)
Fixpoint save_loop (rf : ReceivingFile.t) (progress_tx : option nat) (path : string)
    (position : Z) (chunks : list (ReadResult * WriteResult)) (fs : list string)
    (sent : list UploadProgress.t) : save_result :=
  match chunks with
  | [] => (Returned (Ok tt), fs, sent)
  | (ReadOk O, _) :: _ => (Returned (Ok tt), fs, sent)
  | (ReadOk len, w) :: chunks' =>
      let position' := (position + Z.of_nat len)%Z in
      match w with
      | WriteErr _ => (Panicked, fs, sent)   (* file_buf.write(..).await.unwrap() *)
      | WriteOk =>
          let f := ReceivingFile.file rf in
          let sent' :=
            match progress_tx with
            | Some _ =>
                app sent [UploadProgress.mk (FileDto.id f) position'
                           (Z.geb position' (FileDto.size f))]
            | None => sent
            end in
          save_loop rf progress_tx path position' chunks' fs sent'
      end
  | (ReadErr _, _) :: _ =>
      (* tokio::fs::remove_file(path).await.ok(); return Err(Cancelled)? *)
      (Returned (Err (Receive Cancelled)), fs_remove path fs, sent)
  end.

Definition save_file (acc : Accepted.t) (env : SaveEnv.t) (fs : list string) : save_result :=
  let rf := Accepted.receiving_file acc in
  let path := path_join (Accepted.destination acc) (FileDto.file_name (ReceivingFile.file rf)) in
  match SaveEnv.create_result env with
  | Err e => (Returned (Err (Io e)), fs, [])
  | Ok _ =>
      match save_loop rf (Accepted.progress_tx acc) path 0%Z (SaveEnv.chunks env)
              (fs_create path fs) [] with
      | (Returned (Ok _), fs', sent) =>
          match SaveEnv.flush_result env with
          | Ok _ => (Returned (Ok tt), fs', sent)
          | Err e => (Returned (Err (Io e)), fs', sent)
          end
      | other => other
      end
  end.

(** *** [upload], third part: the lock re-acquired *)

Definition is_terminal (s : FileStatus.t) : bool :=
  FileStatus.eqb s FileStatus.Finished || FileStatus.eqb s FileStatus.Failed.

Definition upload_finish (st : ServerState.t) (file_id : string)
    (save_result : result unit Error) : result unit Error * ServerState.t :=
  match ServerState.receive_session st with
  | None => (Err (Receive Cancelled), st)
  | Some rs =>
      match hm_get file_id (ReceiveSession.files rs) with
      | None => (Err (Receive InvalidToken), st)
      | Some rf =>
          let '(res, status) :=
            match save_result with
            | Ok _ => (Ok tt, FileStatus.Finished)
            | Err _ => (Err (Receive SaveFileFailed), FileStatus.Failed)
            end in
          let rf' := ReceivingFile.mk (ReceivingFile.file rf) status (ReceivingFile.token rf) in
          let rs' := ReceiveSession.set_files
                       (hm_insert file_id rf' (ReceiveSession.files rs)) rs in
          let finish := forallb (fun kv => is_terminal (ReceivingFile.status (snd kv)))
                          (ReceiveSession.files rs') in
          (res, ServerState.set_receive_session (if finish then None else Some rs') st)
      end
  end.

(** [upload] when no other request touches the state while the body is
    streamed: the three parts in sequence. Returns the handler's outcome,
    the state, the destination directory and the progress events sent. *)
Definition upload (st : ServerState.t) (fs : list string) (addr_ip : string)
    (query : list (string * string)) (v2 : bool) (env : SaveEnv.t)
    : Outcome (result unit Error) * ServerState.t * list string * list UploadProgress.t :=
  match upload_begin st addr_ip query v2 with
  | (Err e, st1) => (Returned (Err e), st1, fs, [])
  | (Ok acc, st1) =>
      match save_file acc env fs with
      | (Returned r, fs', sent) =>
          let '(res, st3) := upload_finish st1 (Accepted.file_id acc) r in
          (Returned res, st3, fs', sent)
      | (Panicked, fs', sent) => (Panicked, st1, fs', sent)
      | (Pending, fs', sent) => (Pending, st1, fs', sent)
      end
  end.

(** The HTTP status an [upload] that returned gives. *)
Definition http_status (r : result unit Error) : Z :=
  match r with
  | Ok _ => 200
  | Err e => status_code e
  end.

(** ** Interleavings of the receive engine's critical sections

    Each request handler runs its critical sections atomically under the
    state lock; the streaming part of [upload] runs without it. A step is
    one critical section of some request. *)

Inductive rstep : ServerState.t -> ServerState.t -> Prop :=
| rstep_prepare busy st ip dto sid ui uuid :
    rstep st (snd (prepare_upload busy st ip dto sid ui uuid))
| rstep_upload_begin st ip q v2 :
    rstep st (snd (upload_begin st ip q v2))
| rstep_upload_finish st fid r :
    rstep st (snd (upload_finish st fid r))
| rstep_guard st :
    rstep st (guard_cleanup st).

(** Steps along which a receive session stays installed. *)
Inductive in_session : ServerState.t -> ServerState.t -> Prop :=
| in_session_refl st : in_session st st
| in_session_step st st' st'' :
    rstep st st' ->
    ServerState.receive_session st' <> None ->
    in_session st' st'' ->
    in_session st st''.

(** A prepare-upload request as the server receives it, with the
    outcome of its [try_lock] and what its UI and UUID source answer. *)
Module Attempt.
Record t := mk {
    lock_busy : bool;
    addr_ip : string;
    dto : PrepareUploadRequestDto.t;
    session_id : string;
    ui : UiReply;
    uuid : nat -> string
  }.
End Attempt.

(** Prepare-upload attempts, interleaved with the cleanup tasks spawned by
    earlier attempts' guards. *)
Inductive PrepareEvent :=
| PrepareAttempt (a : Attempt.t)
| GuardRuns.

Definition prepare_record :=
  (ServerState.t * Attempt.t * Outcome (result PrepareUploadResponseDto.t Error)
   * ServerState.t)%type.

Fixpoint run_prepares (st : ServerState.t) (evs : list PrepareEvent) : list prepare_record :=
  match evs with
  | [] => []
  | GuardRuns :: evs' => run_prepares (guard_cleanup st) evs'
  | PrepareAttempt a :: evs' =>
      let '(o, st') := prepare_upload (Attempt.lock_busy a) st (Attempt.addr_ip a)
                         (Attempt.dto a) (Attempt.session_id a) (Attempt.ui a)
                         (Attempt.uuid a) in
      (st, a, o, st') :: run_prepares st' evs'
  end.

Definition succeeded (r : prepare_record) : bool :=
  match r with
  | (_, _, Returned (Ok _), _) => true
  | _ => false
  end.

(** ** The prepare-upload response on the wire (server/controller.rs,
    dto/prepare_upload_dto.rs) *)

(** A [HashMap<String, String>] as JSON: an object of strings. Reading one
    inserts its entries in turn, a repeated key overwriting the earlier one. *)
Definition ser_string_map (m : list (string * string)) : JValue :=
  JObj (map (fun '(k, s) => (k, JStr s)) m).

Fixpoint de_string_entries (fs : list (string * JValue)) (acc : list (string * string))
    : result (list (string * string)) DeError :=
  match fs with
  | [] => Ok acc
  | (k, x) :: fs' => s <- de_string x ;; de_string_entries fs' (hm_insert k s acc)
  end.

Definition de_string_map (v : JValue) : result (list (string * string)) DeError :=
  match v with
  | JObj fs => de_string_entries fs []
  | _ => Err (DeErr "invalid type: expected a map")
  end.

Definition ser_PrepareUploadResponseDto (d : PrepareUploadResponseDto.t) : JValue :=
  JObj [("sessionId", JStr (PrepareUploadResponseDto.session_id d));
        ("files", ser_string_map (PrepareUploadResponseDto.files d))].

Definition de_PrepareUploadResponseDto (v : JValue)
    : result PrepareUploadResponseDto.t DeError :=
  match v with
  | JObj fs =>
      session_id <- req_field "sessionId" fs de_string ;;
      files <- req_field "files" fs de_string_map ;;
      Ok (PrepareUploadResponseDto.mk session_id files)
  | _ => Err (DeErr "invalid type: expected struct PrepareUploadResponseDto")
  end.

(** The bodies of [prepare_upload_v1] ([Json(dto.files)]) and
    [prepare_upload_v2] ([Json(dto)]). *)
Definition prepare_upload_v1_body (dto : PrepareUploadResponseDto.t) : JValue :=
  ser_string_map (PrepareUploadResponseDto.files dto).
Definition prepare_upload_v2_body (dto : PrepareUploadResponseDto.t) : JValue :=
  ser_PrepareUploadResponseDto dto.

(** ** The send side (send/send_file.rs, send/send_session.rs) *)

(** A [LinkedHashMap<String, V>]: an association list in insertion order.
    [insert] of a new key appends the entry; of a key already present, it
    replaces the value and moves the entry to the back. [get_mut] reaches
    the entry of a key. *)
Definition lhm_insert {V} (k : string) (v : V) (m : list (string * V))
    : list (string * V) :=
  app (filter (fun kv => negb (String.eqb (fst kv) k)) m) [(k, v)].

Fixpoint lhm_modify {V} (k : string) (g : V -> V) (m : list (string * V))
    : list (string * V) :=
  match m with
  | [] => []
  | (k', v) :: m' =>
      if String.eqb k' k then (k', g v) :: m' else (k', v) :: lhm_modify k g m'
  end.

Module SendingFile.
Record t := mk {
    index : nat;
    file : FileDto.t;
    status : FileStatus.t;
    path : option string;
    token : option string
  }.

Definition new (index : nat) (file : FileDto.t) (path : option string) : t :=
    mk index file FileStatus.Queue path None.

Definition set_status (s : FileStatus.t) (f : t) : t :=
    mk (index f) (file f) s (path f) (token f).
Definition set_token (tk : option string) (f : t) : t :=
    mk (index f) (file f) (status f) (path f) tk.
End SendingFile.

Module SendingFiles.
Record t := mk { files : list (string * SendingFile.t) }.

Definition get (self : t) (file_id : string) : option SendingFile.t :=
    hm_get file_id (files self).

Definition len (self : t) : nat := length (files self).

(** [add_text]: [id] is the [Uuid::new_v4()] it draws and [text_hash] the
    hex MD5 digest of [text]; [String.length] counts bytes, as [str::len]. *)
Definition add_text (self : t) (text : string) (preview : bool) (id text_hash : string) : t :=
    let file := {| FileDto.id := id;
                   FileDto.file_name := text_hash ++ ".txt";
                   FileDto.size := Z.of_nat (String.length text);
                   FileDto.file_type := Text;
                   FileDto.hash := Some text_hash;
                   FileDto.preview := if preview then Some text else None |} in
    mk (lhm_insert id (SendingFile.new (len self) file None) (files self)).

Definition update_token (self : t) (token : list (string * string)) : t :=
    mk (map (fun '(file_id, file) =>
               (file_id,
                match hm_get file_id token with
                | Some tk =>
                    SendingFile.set_token (Some tk)
                      (SendingFile.set_status FileStatus.Sending file)
                | None => SendingFile.set_status FileStatus.Skipped file
                end))
            (files self)).

Definition to_finish_status (self : t) (file_id : string) (success : bool) : t :=
    mk (lhm_modify file_id
          (SendingFile.set_status
             (if success then FileStatus.Finished else FileStatus.Failed))
          (files self)).

End SendingFiles.

(** What [response.json()] is given: JSON text, or bytes that are not JSON. *)
Inductive ResponseBody :=
| JsonBody (v : JValue)
| NotJsonBody.

(** The body [upload_file] posts: the file at [path], streamed, or the
    bytes of the preview. *)
Inductive UploadBody :=
| StreamFile (path : string)
| Bytes (b : string).

(** One item of the [ReaderStream] over the file being sent. *)
Inductive Chunk :=
| ChunkOk (len : nat)
| ChunkErr (e : IoError).

(** An [AbortHandle] is named by a number. *)
Module SendSession.
Record t := mk {
    session_id : string;
    info : RegisterDto.t;
    target : Device.t;
    files : SendingFiles.t;
    remote_session_id : option string;
    cancel_token : option nat
  }.

(** [SendSession::new]; [session_id] is the UUID it draws. *)
Definition new (device : Device.t) (target : Device.t) (files : SendingFiles.t)
    (session_id : string) : t :=
    mk session_id (RegisterDto.from device) target files None None.

Definition set_files (fs : SendingFiles.t) (s : t) : t :=
    mk (session_id s) (info s) (target s) fs (remote_session_id s) (cancel_token s).
Definition set_remote_session_id (r : option string) (s : t) : t :=
    mk (session_id s) (info s) (target s) (files s) r (cancel_token s).
Definition set_cancel_token (c : option nat) (s : t) : t :=
    mk (session_id s) (info s) (target s) (files s) (remote_session_id s) c.

(** The [match response.status()] on the prepare-upload response. *)
Definition prepare_status (status : Z) : result unit SendError :=
    if Z.eqb status 200 then Ok tt
    else if Z.eqb status 204 then Err Send_NothingSelected
    else if Z.eqb status 403 then Err Rejected
    else if Z.eqb status 409 then Err Busy
    else Err (Unknown status).

(** [response.json()] into the v1 map, or into the v2 DTO whose session id
    is kept; a body that does not parse is a [reqwest::Error]. *)
Definition read_file_token (version : string) (body : ResponseBody)
    : result (list (string * string) * option string) Error :=
    match body with
    | NotJsonBody => Err Reqwest
    | JsonBody v =>
        if String.eqb version PROTOCOL_VERSION_1
        then match de_string_map v with
             | Ok m => Ok (m, None)
             | Err _ => Err Reqwest
             end
        else match de_PrepareUploadResponseDto v with
             | Ok dto => Ok (PrepareUploadResponseDto.files dto,
                             Some (PrepareUploadResponseDto.session_id dto))
             | Err _ => Err Reqwest
             end
    end.

(** [upload] up to [self.files.update_token(file_token)]: [reply] is the
    status of the prepare-upload response, or the error of [send()], and
    [body] its body. *)
Definition upload_prepare (self : t) (reply : result Z unit) (body : ResponseBody)
    : result t Error :=
    status <- (match reply with Ok s => Ok s | Err _ => Err Reqwest end) ;;
    _ <- (match prepare_status status with Ok _ => Ok tt | Err e => Err (Send e) end) ;;
    ft <- read_file_token (Device.version (target self)) body ;;
    let self' := match snd ft with
                 | Some sid => set_remote_session_id (Some sid) self
                 | None => self
                 end in
    match fst ft with
    | [] => Err (Send Send_NothingSelected)
    | file_token => Ok (set_files (SendingFiles.update_token (files self') file_token) self')
    end.

(** The task spawned by [upload]: [fs] is the clone of the files taken
    when it is spawned, [slot] is [state.send_session], and
    [upload_file_outcome id] is how [Self::upload_file] ends for the file
    [id]. A panic ends the task. *)
Fixpoint upload_task (fs : list (string * SendingFile.t))
    (upload_file_outcome : string -> Outcome (result unit Error)) (slot : option t)
    : Outcome unit * option t :=
    match fs with
    | [] => (Returned tt, slot)
    | (file_id, file) :: fs' =>
        if FileStatus.eqb (SendingFile.status file) FileStatus.Skipped
        then upload_task fs' upload_file_outcome slot
        else
          match upload_file_outcome file_id with
          | Returned send_result =>
              let success := match send_result with Ok _ => true | Err _ => false end in
              let slot' :=
                match slot with
                | Some session =>
                    Some (set_files
                            (SendingFiles.to_finish_status (files session) file_id success)
                            session)
                | None => None
                end in
              upload_task fs' upload_file_outcome slot'
          | Panicked => (Panicked, slot)
          | Pending => (Pending, slot)
          end
    end.

(** The body [upload_file] builds; [open_result] is that of [File::open]. *)
Definition upload_file_body (sending_file : SendingFile.t) (open_result : result unit IoError)
    : Outcome (result UploadBody Error) :=
    let file := SendingFile.file sending_file in
    match SendingFile.path sending_file with
    | Some path =>
        match open_result with
        | Ok _ => Returned (Ok (StreamFile path))
        | Err e => Returned (Err (Io e))
        end
    | None =>
        match FileDto.file_type file, FileDto.preview file with
        | Text, Some preview => Returned (Ok (Bytes preview))
        | _, _ => Panicked (* unimplemented!() *)
        end
    end.

(** The URL [upload_file] posts to. *)
Definition upload_url (remote_session_id : option string) (sending_file : SendingFile.t)
    (target : Device.t) : Outcome string :=
    let v2_args := match remote_session_id with
                   | Some session_id => "&sessionId=" ++ session_id
                   | None => EmptyString
                   end in
    match SendingFile.token sending_file with
    | Some token =>
        Returned (ApiRoute.target ApiRoute.Upload target ++ "?fileId="
                  ++ FileDto.id (SendingFile.file sending_file) ++ "&token=" ++ token
                  ++ v2_args)
    | None => Panicked (* expect("No file token") *)
    end.

(** [upload_file]: [response] is the status of the upload response, or the
    error of [send()]. *)
Definition upload_file (remote_session_id : option string) (sending_file : SendingFile.t)
    (target : Device.t) (open_result : result unit IoError) (response : result Z unit)
    : Outcome (result unit Error) :=
    match upload_file_body sending_file open_result with
    | Returned (Err e) => Returned (Err e)
    | Returned (Ok _) =>
        match upload_url remote_session_id sending_file target with
        | Returned _ =>
            match response with
            | Ok status =>
                if Z.eqb status 200 then Returned (Ok tt)
                else Returned (Err (Send (Unknown status)))
            | Err _ => Returned (Err Reqwest)
            end
        | Panicked => Panicked
        | Pending => Pending
        end
    | Panicked => Panicked
    | Pending => Pending
    end.

(** The progress events of the stream [upload_file] posts: one for each
    chunk read, at the position [min(uploaded + len, file_size)]; the
    stream ends at the first error. *)
Fixpoint upload_progress (file_id : string) (file_size uploaded : Z) (chunks : list Chunk)
    : list UploadProgress.t :=
    match chunks with
    | [] => []
    | ChunkOk len :: chunks' =>
        let pos := Z.min (uploaded + Z.of_nat len) file_size in
        UploadProgress.mk file_id pos (Z.geb pos file_size)
          :: upload_progress file_id file_size pos chunks'
    | ChunkErr _ :: _ => []
    end.

(** [cancel]: [reply] is what the cancel request posted to the receiver
    gets when [from_sender] (its status, or the error of [send()]); no
    request is made otherwise. Returns the result and whether
    [cancel_token.abort()] ran. *)
Definition cancel (self : t) (from_sender : bool) (reply : result Z unit)
    : result unit Error * bool :=
    match cancel_token self with
    | None => (Err (Send NoPermission), false)
    | Some _ =>
        let cancel_result : result (result unit SendError) Error :=
          if from_sender then
            match reply with
            | Ok status =>
                Ok (if Z.eqb status 200 then Ok tt
                    else if Z.eqb status 403 then Err NoPermission
                    else Err (Unknown status))
            | Err _ => Err Reqwest (* status_code? returns here *)
            end
          else Ok (Ok tt) in
        match cancel_result with
        | Err e => (Err e, false)
        | Ok r => (match r with Ok _ => Ok tt | Err e => Err (Send e) end, true)
        end
    end.

Definition cancel_by_receiver (self : t) : result unit Error * bool :=
    cancel self false (Err tt).
Definition cancel_by_sender (self : t) (reply : result Z unit) : result unit Error * bool :=
    cancel self true reply.
End SendSession.

(** [cancel_v1] and [cancel_v2] on [state.send_session]: the result, the
    send session left in the state, and whether the upload task was
    aborted. *)
Definition cancel_v1 (send_session : option SendSession.t)
    : result unit Error * option SendSession.t * bool :=
  match send_session with
  | None => (Err (Send NoPermission), None, false)
  | Some session =>
      let '(r, aborted) := SendSession.cancel_by_receiver session in (r, None, aborted)
  end.

Definition cancel_v2 (query : list (string * string)) (send_session : option SendSession.t)
    : result unit Error * option SendSession.t * bool :=
  match hm_get "sessionId" query with
  | None => (Err (Send NoPermission), send_session, false)
  | Some remote_session_id =>
      let mismatch :=
        match send_session with
        | Some session =>
            negb (option_eqb String.eqb (SendSession.remote_session_id session)
                    (Some remote_session_id))
        | None => false
        end in
      if mismatch then (Err (Send NoPermission), send_session, false)
      else
        match send_session with
        | None => (Err (Send NoPermission), None, false)
        | Some session =>
            let '(r, aborted) := SendSession.cancel_by_receiver session in (r, None, aborted)
        end
  end.

(** The files map [prepare_upload] builds from the selection (its
    [collect] into a [HashMap], a later file with the same id replacing an
    earlier one), and the token map of its response. *)
Definition issue_files (uuid : nat -> string) :=
  fix issue (i : nat) (l : list FileDto.t) (m : list (string * ReceivingFile.t)) :=
    match l with
    | [] => m
    | f :: l' =>
        issue (S i) l'
          (hm_insert (FileDto.id f)
             (ReceivingFile.mk f FileStatus.Queue (Some (uuid i))) m)
    end.

Definition response_tokens (rfiles : list (string * ReceivingFile.t)) : list (string * string) :=
  map (fun '(id, f) =>
         (id, match ReceivingFile.token f with Some t => t | None => EmptyString end))
      rfiles.

(** The ctrl-c task of [main]: it takes the send session out of the
    state and cancels it as the sender, [expect] panicking on an error,
    then exits the process ([Returned]). [reply] is what the cancel request
    gets. Returns how the task ends, the slot it leaves and whether the
    upload task was aborted. *)
Definition ctrl_c_task (send_session : option SendSession.t) (reply : result Z unit)
    : Outcome unit * option SendSession.t * bool :=
  match send_session with
  | None => (Returned tt, None, false)
  | Some session =>
      let '(r, aborted) := SendSession.cancel_by_sender session reply in
      match r with
      | Ok _ => (Returned tt, None, aborted)
      | Err _ => (Panicked, None, aborted) (* expect("Failed to cancel task") *)
      end
  end.

(** ** Concrete inputs *)

Definition ex_info : RegisterDto.t :=
  RegisterDto.mk "Peer" (Some "2.0") None (Some Desktop) "peer-fp" (Some 53317%Z)
    (Some Http) (Some false).
Definition ex_file : FileDto.t :=
  FileDto.mk "F" "hello.txt" 10 Text None None.
Definition ex_request : PrepareUploadRequestDto.t :=
  PrepareUploadRequestDto.mk ex_info [("F", ex_file)].
Definition ex_uuid (i : nat) : string := "tok" ++ string_of_Z (Z.of_nat i).
Definition ex_state0 : ServerState.t := ServerState.mk (Settings.mk "." true) None.
Definition ex_state1 : ServerState.t :=
  snd (prepare_upload false ex_state0 "10.0.0.2" ex_request "S1" (UiRecv None) ex_uuid).
Definition ex_query : list (string * string) :=
  [("fileId", "F"); ("token", "tok0"); ("sessionId", "S1")].
(** The sender aborts after the first 5 bytes: the next read fails. *)
Definition ex_env_aborted : SaveEnv.t :=
  SaveEnv.mk (Ok tt) [(ReadOk 5, WriteOk); (ReadErr (IoOs "connection reset"), WriteOk)] (Ok tt).

Definition ex_multicast : MulticastDto.t :=
  MulticastDto.v2 "Nice Orange" (Some "Samsung") Headless "random string" 53318 true.

Definition ex_scanner : MulticastDeviceScanner.t :=
  MulticastDeviceScanner.new
    (Device.mk "0.0.0.0" "2.0" 53317 false "my-fp" "Me" None Headless false) 53318.

(** The chunk at which the loop stops: the first one that is not a
    successful non-empty read followed by a successful write. *)
Fixpoint stop_chunk (chunks : list (ReadResult * WriteResult))
    : option (ReadResult * WriteResult) :=
  match chunks with
  | [] => None
  | (ReadOk (S _), WriteOk) :: chunks' => stop_chunk chunks'
  | c :: _ => Some c
  end.

Definition saved_path (acc : Accepted.t) : string :=
  path_join (Accepted.destination acc)
    (FileDto.file_name (ReceivingFile.file (Accepted.receiving_file acc))).

Definition has_sending_session (st : ServerState.t) : Prop :=
  exists rs, ServerState.receive_session st = Some rs
             /\ ReceiveSession.status rs = ReceiveSessionStatus.Sending.

Definition ex_attempt (busy : bool) (sid : string) : Attempt.t :=
  Attempt.mk busy "10.0.0.2" ex_request sid (UiRecv None) ex_uuid.

(** The session [s0] is still installed (same id, sender and state) and the
    token of file [fid] has been consumed. *)
Definition consumed (s0 : ReceiveSession.t) (fid : string) (st : ServerState.t) : Prop :=
  exists rs rf,
    ServerState.receive_session st = Some rs
    /\ ReceiveSession.session_id rs = ReceiveSession.session_id s0
    /\ ReceiveSession.sender rs = ReceiveSession.sender s0
    /\ ReceiveSession.status rs = ReceiveSession.status s0
    /\ hm_get fid (ReceiveSession.files rs) = Some rf
    /\ ReceivingFile.token rf = None.

Definition ex_accepted : Accepted.t :=
  Accepted.mk "F" (ReceivingFile.mk ex_file FileStatus.Sending None) "." None.
Definition ex_state2 : ServerState.t :=
  snd (upload_begin ex_state1 "10.0.0.2" ex_query true).

Definition ex_me : Device.t :=
  Device.mk "0.0.0.0" "2.0" 53317 false "my-fp" "Me" None Headless false.
Definition ex_peer : Device.t :=
  Device.mk "10.0.0.3" "2.0" 53317 false "peer-fp" "Peer" None Headless false.
(** The peer's announcement, then a poll after two seconds. *)
Definition ex_tail_polls : list MulticastDeviceScanner.Poll :=
  [MulticastDeviceScanner.mkPoll true (MulticastDeviceScanner.RecvError (IoOs "would block"))].
Definition ex_peer_polls : list MulticastDeviceScanner.Poll :=
  MulticastDeviceScanner.mkPoll false
    (MulticastDeviceScanner.RecvFrom
       (MulticastDeviceScanner.JsonText
          (ser_MulticastDto (MulticastDeviceScanner.device
                               (MulticastDeviceScanner.new ex_peer 53317))))
       "10.0.0.3" 53317)
  :: ex_tail_polls.
Definition ex_announce : MulticastDeviceScanner.SendToResult :=
  MulticastDeviceScanner.Sent (String.length (MulticastDeviceScanner.announce_msg ex_scanner)).
Definition ex_resp : PrepareUploadResponseDto.t :=
  PrepareUploadResponseDto.mk "S1" [("F", "tok0")].
Definition ex_state_manual : ServerState.t := ServerState.mk (Settings.mk "." false) None.
Definition ex_rs2 : ReceiveSession.t :=
  {| ReceiveSession.session_id := "S1";
     ReceiveSession.status := ReceiveSessionStatus.Sending;
     ReceiveSession.sender := RegisterDto.to_device ex_info "10.0.0.2" DEFAULT_PORT false;
     ReceiveSession.files := [("F", ReceivingFile.mk ex_file FileStatus.Sending None)];
     ReceiveSession.destination_directory := ".";
     ReceiveSession.progress_tx := None |}.
(** Five bytes arrive, the body ends, and the final flush fails. *)
Definition ex_env_flush_failed : SaveEnv.t :=
  SaveEnv.mk (Ok tt) [(ReadOk 5, WriteOk); (ReadOk 0, WriteOk)] (Err (IoOs "disk full")).
Definition ex_accepted_tx : Accepted.t :=
  Accepted.mk "F" (ReceivingFile.mk ex_file FileStatus.Sending None) "." (Some 0).
Definition ex_env_two_chunks : SaveEnv.t :=
  SaveEnv.mk (Ok tt) [(ReadOk 4, WriteOk); (ReadOk 6, WriteOk)] (Ok tt).
(** The text "hi" with its MD5 digest. *)
Definition ex_text_files : SendingFiles.t :=
  SendingFiles.add_text (SendingFiles.mk []) "hi" true "T" "49f68a5c8493ec2c0bf489821c21fc3b".
Definition ex_send : SendSession.t := SendSession.new ex_me ex_peer ex_text_files "local".
Definition ex_send_running : SendSession.t :=
  SendSession.set_cancel_token (Some 7)
    (SendSession.set_files (SendingFiles.update_token ex_text_files [("T", "tk")])
       (SendSession.set_remote_session_id (Some "R1") ex_send)).
Definition ex_sending_text : SendingFile.t :=
  match SendingFiles.get (SendingFiles.update_token ex_text_files [("T", "tk")]) "T" with
  | Some f => f
  | None => SendingFile.new 0 ex_file None
  end.
Definition ex_out (id : string) : Outcome (result unit Error) := Returned (Ok tt).
Definition ex_upload_url : string :=
  match SendSession.upload_url (Some "R1") ex_sending_text ex_peer with
  | Returned u => u
  | _ => EmptyString
  end.

(** * Theorems *)

Example mime_image_png : Mime_from_str "image/PNG" = Some ("image", "png").
Proof. reflexivity. Qed.

Example mime_image_name : Mime_from_str "image" = None.
Proof. reflexivity. Qed.

Example multicast_v1_json :
  to_string (ser_MulticastDto
    (MulticastDto.v1 "Nice Orange" (Some "Samsung") Mobile "random string" true))
  = squote_to_dquote "{'alias':'Nice Orange','version':null,'deviceModel':'Samsung','deviceType':'mobile','fingerprint':'random string','port':null,'protocol':null,'download':null,'announcement':true,'announce':null}".
Proof. reflexivity. Qed.

Example ex_prepare_ok :
  fst (prepare_upload false ex_state0 "10.0.0.2" ex_request "S1" (UiRecv None) ex_uuid)
  = Returned (Ok (PrepareUploadResponseDto.mk "S1" [("F", "tok0")])).
Proof. reflexivity. Qed.

Example ex_upload_ok :
  let '(o, st, fs, sent) :=
    upload ex_state1 [] "10.0.0.2" ex_query true
      (SaveEnv.mk (Ok tt) [(ReadOk 10, WriteOk)] (Ok tt)) in
  o = Returned (Ok tt) /\ ServerState.receive_session st = None
  /\ fs = ["./hello.txt"].
Proof. vm_compute. auto. Qed.

(** C1 (code_bug). The sender aborts mid-stream: [save_file] deletes the
    partial file and returns [Cancelled], but the third part of [upload]
    turns every failed save into [SaveFileFailed]: the endpoint answers
    500, not [Cancelled] (200). *)
Theorem upload_read_error_answers_save_file_failed :
  match upload ex_state1 [] "10.0.0.2" ex_query true ex_env_aborted with
  | (Returned r, _, fs, _) =>
      r = Err (Receive SaveFileFailed) /\ http_status r = 500%Z /\ fs = []
  | _ => False
  end.
Proof. vm_compute. auto. Qed.

(** C2, counterexample: a device announcing version "3.0" is not routed
    like a "1.0" device. *)
Lemma route_unknown_version_counterexample :
  ~ (forall (r : ApiRoute.t) (d : Device.t),
       Device.version d <> PROTOCOL_VERSION_1 ->
       Device.version d <> PROTOCOL_VERSION_2 ->
       ApiRoute.route r (Device.version d) = ApiRoute.route r PROTOCOL_VERSION_1
       /\ ApiRoute.target r d
          = ApiRoute.target_raw r (Device.ip d) (Device.port d) (Device.https d)
              PROTOCOL_VERSION_1).
Proof.
  intros H.
  destruct (H ApiRoute.Upload
              (Device.mk "10.0.0.2" "3.0" 53317 false "fp" "Peer" None Desktop false))
    as [Hr _]; [simpl; discriminate | simpl; discriminate |].
  vm_compute in Hr. discriminate.
Qed.

(** Only the version string "1.0" selects the v1 route of an operation. *)
Lemma route_is_v1_iff (r : ApiRoute.t) (v : string) :
  ApiRoute.route r v = ApiRoute.route r PROTOCOL_VERSION_1 <-> v = PROTOCOL_VERSION_1.
Proof.
  split; [|intros ->; reflexivity].
  unfold ApiRoute.route at 1.
  destruct (String.eqb_spec v PROTOCOL_VERSION_1) as [E|E]; [intros; exact E|].
  intros Hr. exfalso. destruct r; vm_compute in Hr; discriminate.
Qed.

(** C2 (amended): every version string other than exactly "1.0", known or
    not, selects the v2 route, the same as "2.0"; only "1.0" selects v1.
    A device read from a [RegisterDto] or a [MulticastDto] by [to_device]
    gets the v1 routes exactly when the DTO carries no version (the
    fallback "1.0") or carries "1.0" itself; any other version it carries
    is kept and selects v2. *)
Theorem route_non_v1_is_v2 (r : ApiRoute.t) (d : Device.t)
    (H : Device.version d <> PROTOCOL_VERSION_1) :
  ApiRoute.route r (Device.version d) = ApiRoute.route r PROTOCOL_VERSION_2
  /\ ApiRoute.target r d
     = ApiRoute.target_raw r (Device.ip d) (Device.port d) (Device.https d)
         PROTOCOL_VERSION_2
  /\ ApiRoute.route r (Device.version d) = "/api/localsend/v2/" ++ ApiRoute._v2 r
  /\ (forall (dto : RegisterDto.t) (ip : string) (own_port : Z) (own_https : bool),
        ApiRoute.route r (Device.version (RegisterDto.to_device dto ip own_port own_https))
          = ApiRoute.route r PROTOCOL_VERSION_1
        <-> RegisterDto.version dto = None
            \/ RegisterDto.version dto = Some PROTOCOL_VERSION_1)
  /\ (forall (dto : MulticastDto.t) (ip : string) (own_port : Z) (own_https : bool),
        ApiRoute.route r (Device.version (MulticastDto.to_device dto ip own_port own_https))
          = ApiRoute.route r PROTOCOL_VERSION_1
        <-> MulticastDto.version dto = None
            \/ MulticastDto.version dto = Some PROTOCOL_VERSION_1).
Proof.
  assert (Hv : ApiRoute.route r (Device.version d) = ApiRoute.route r PROTOCOL_VERSION_2).
  { unfold ApiRoute.route.
    destruct (String.eqb_spec (Device.version d) PROTOCOL_VERSION_1); [contradiction|].
    reflexivity. }
  split; [exact Hv|]. split.
  { unfold ApiRoute.target, ApiRoute.target_raw. rewrite Hv. reflexivity. }
  split; [rewrite Hv; reflexivity|].
  split; intros dto ip own_port own_https; rewrite route_is_v1_iff.
  - unfold RegisterDto.to_device. simpl.
    destruct (RegisterDto.version dto) as [v|]; split.
    + intros ->. right. reflexivity.
    + intros [E|E]; inversion E; reflexivity.
    + intros _. left. reflexivity.
    + intros _. reflexivity.
  - unfold MulticastDto.to_device. simpl.
    destruct (MulticastDto.version dto) as [v|]; split.
    + intros ->. right. reflexivity.
    + intros [E|E]; inversion E; reflexivity.
    + intros _. left. reflexivity.
    + intros _. reflexivity.
Qed.

Lemma route_non_v1_is_v2_witness :
  Device.version (Device.mk "10.0.0.2" "3.0" 53317 false "fp" "Peer" None Desktop false)
    <> PROTOCOL_VERSION_1
  /\ ApiRoute.route ApiRoute.Upload "3.0" = "/api/localsend/v2/upload"
  /\ ApiRoute.route ApiRoute.Upload
       (Device.version
          (RegisterDto.to_device
             (RegisterDto.mk "Peer" None None None "fp" None None None)
             "10.0.0.2" 53317 false))
     = ApiRoute.route ApiRoute.Upload PROTOCOL_VERSION_1.
Proof.
  assert (H : Device.version
                (Device.mk "10.0.0.2" "3.0" 53317 false "fp" "Peer" None Desktop false)
              <> PROTOCOL_VERSION_1) by (simpl; discriminate).
  split; [exact H|].
  destruct (route_non_v1_is_v2 ApiRoute.Upload _ H) as [_ [_ [E [Hreg _]]]].
  split; [exact E|].
  apply Hreg. left. reflexivity.
Defined.

(** ** Serialization round trips *)

Lemma req_field_ser {A} (k : string) fs (de : JValue -> result A DeError) v a :
  field k fs = Ok (Some v) -> de v = Ok a -> req_field k fs de = Ok a.
Proof. intros Hf Hd. unfold req_field. rewrite Hf. exact Hd. Qed.

Lemma opt_field_ser {A} (k : string) fs (ser : A -> JValue) de (o : option A) :
  field k fs = Ok (Some (ser_opt ser o)) ->
  match o with Some a => ser a <> JNull /\ de (ser a) = Ok a | None => True end ->
  opt_field k fs de = Ok o.
Proof.
  intros Hf Ho. unfold opt_field. rewrite Hf. cbn [bind].
  destruct o as [a|]; [|reflexivity]. destruct Ho as [Hn Hd]. simpl.
  remember (ser a) as v eqn:E.
  destruct v; try congruence; simpl; rewrite Hd; reflexivity.
Qed.

Ltac req_step k :=
  try (erewrite (req_field_ser k); [cbn [bind] | reflexivity | reflexivity]).

Ltac opt_step k ser o :=
  rewrite (opt_field_ser k _ ser _ o); [cbn [bind] | reflexivity | ].

Lemma ser_DeviceType_ok (d : DeviceType) :
  ser_DeviceType d <> JNull /\ de_DeviceType (ser_DeviceType d) = Ok d.
Proof. destruct d; split; (discriminate || reflexivity). Qed.

Lemma ser_ProtocolType_ok (p : ProtocolType) :
  ser_ProtocolType p <> JNull /\ de_ProtocolType (ser_ProtocolType p) = Ok p.
Proof. destruct p; split; (discriminate || reflexivity). Qed.

Lemma opt_ok_string (o : option string) :
  match o with Some a => JStr a <> JNull /\ de_string (JStr a) = Ok a | None => True end.
Proof. destruct o; [split; [discriminate | reflexivity] | exact I]. Qed.

Lemma opt_ok_bool (o : option bool) :
  match o with Some a => JBool a <> JNull /\ de_bool (JBool a) = Ok a | None => True end.
Proof. destruct o; [split; [discriminate | reflexivity] | exact I]. Qed.

Lemma opt_ok_u16 (o : option Z) :
  match o with Some p => u16_ok p | None => true end = true ->
  match o with Some a => JNum a <> JNull /\ de_u16 (JNum a) = Ok a | None => True end.
Proof.
  destruct o as [p|]; [|trivial]. intros H.
  split; [discriminate|]. simpl. rewrite H. reflexivity.
Qed.

Lemma opt_ok_DeviceType (o : option DeviceType) :
  match o with
  | Some a => ser_DeviceType a <> JNull /\ de_DeviceType (ser_DeviceType a) = Ok a
  | None => True end.
Proof. destruct o; [apply ser_DeviceType_ok | exact I]. Qed.

Lemma opt_ok_ProtocolType (o : option ProtocolType) :
  match o with
  | Some a => ser_ProtocolType a <> JNull /\ de_ProtocolType (ser_ProtocolType a) = Ok a
  | None => True end.
Proof. destruct o; [apply ser_ProtocolType_ok | exact I]. Qed.

Lemma RegisterDto_roundtrip (d : RegisterDto.t) :
  RegisterDto_wf d = true -> de_RegisterDto (ser_RegisterDto d) = Ok d.
Proof.
  destruct d as [alias version device_model device_type fingerprint port protocol download].
  unfold RegisterDto_wf; simpl. intros Hp.
  cbv beta iota zeta delta [de_RegisterDto ser_RegisterDto].
  req_step "alias".
  opt_step "version" JStr version; [|apply opt_ok_string].
  opt_step "deviceModel" JStr device_model; [|apply opt_ok_string].
  opt_step "deviceType" ser_DeviceType device_type; [|apply opt_ok_DeviceType].
  req_step "fingerprint".
  opt_step "port" JNum port; [|apply opt_ok_u16; exact Hp].
  opt_step "protocol" ser_ProtocolType protocol; [|apply opt_ok_ProtocolType].
  opt_step "download" JBool download; [|apply opt_ok_bool].
  reflexivity.
Qed.

Lemma MulticastDto_roundtrip (d : MulticastDto.t) :
  MulticastDto_wf d = true -> de_MulticastDto (ser_MulticastDto d) = Ok d.
Proof.
  destruct d as [alias version device_model device_type fingerprint port protocol
                 download announcement announce].
  unfold MulticastDto_wf; simpl. intros Hp.
  cbv beta iota zeta delta [de_MulticastDto ser_MulticastDto].
  req_step "alias".
  opt_step "version" JStr version; [|apply opt_ok_string].
  opt_step "deviceModel" JStr device_model; [|apply opt_ok_string].
  opt_step "deviceType" ser_DeviceType device_type; [|apply opt_ok_DeviceType].
  req_step "fingerprint".
  opt_step "port" JNum port; [|apply opt_ok_u16; exact Hp].
  opt_step "protocol" ser_ProtocolType protocol; [|apply opt_ok_ProtocolType].
  opt_step "download" JBool download; [|apply opt_ok_bool].
  opt_step "announcement" JBool announcement; [|apply opt_ok_bool].
  opt_step "announce" JBool announce; [|apply opt_ok_bool].
  reflexivity.
Qed.

(** Every serialized [FileType] name reads back as [Other]: none of them
    has the ['/'] of a MIME type. *)
Lemma de_ser_FileType (t : FileType) : de_FileType (ser_FileType t) = Ok Other.
Proof. destruct t; reflexivity. Qed.

Lemma FileDto_roundtrip (f : FileDto.t) :
  FileDto_wf f = true ->
  de_FileDto (ser_FileDto f)
  = Ok (FileDto.mk (FileDto.id f) (FileDto.file_name f) (FileDto.size f) Other
          (FileDto.hash f) (FileDto.preview f)).
Proof.
  destruct f as [id file_name size file_type hash preview].
  unfold FileDto_wf; simpl. intros Hs.
  cbv beta iota zeta delta [de_FileDto ser_FileDto].
  req_step "id".
  req_step "fileName".
  erewrite (req_field_ser "size"); [cbn [bind] | reflexivity | simpl; rewrite Hs; reflexivity].
  opt_step "hash" JStr hash; [|apply opt_ok_string].
  opt_step "preview" JStr preview; [|apply opt_ok_string].
  destruct file_type; reflexivity.
Qed.

(** C5, counterexample: the FileDto [ex_file] (a [Text] file) comes back
    from a serialize/deserialize round trip as an [Other] file. *)
Lemma file_dto_roundtrip_counterexample :
  FileDto_wf ex_file = true
  /\ de_FileDto (ser_FileDto ex_file) <> Ok ex_file.
Proof.
  split; [reflexivity|].
  vm_compute. intros H. discriminate H.
Qed.

(** C5 (amended): MulticastDto and RegisterDto values with in-range ports
    read back equal after serialization (an absent optional field is
    written as [null] and read back as [None]); a FileDto reads back
    equal in every field except [file_type], which always reads back as
    [Other]: the lowercase variant name written by the derived
    [Serialize] is not a MIME type, and the hand-written [Deserialize]
    falls back to the default. *)
Theorem dto_roundtrip (m : MulticastDto.t) (r : RegisterDto.t) (f : FileDto.t)
    (Hm : MulticastDto_wf m = true) (Hr : RegisterDto_wf r = true)
    (Hf : FileDto_wf f = true) :
  de_MulticastDto (ser_MulticastDto m) = Ok m
  /\ de_RegisterDto (ser_RegisterDto r) = Ok r
  /\ de_FileDto (ser_FileDto f)
     = Ok (FileDto.mk (FileDto.id f) (FileDto.file_name f) (FileDto.size f) Other
             (FileDto.hash f) (FileDto.preview f)).
Proof.
  split; [apply MulticastDto_roundtrip; exact Hm|].
  split; [apply RegisterDto_roundtrip; exact Hr|].
  apply FileDto_roundtrip; exact Hf.
Qed.

Lemma dto_roundtrip_witness :
  MulticastDto_wf ex_multicast = true /\ RegisterDto_wf ex_info = true
  /\ FileDto_wf ex_file = true
  /\ de_MulticastDto (ser_MulticastDto ex_multicast) = Ok ex_multicast.
Proof.
  assert (Hm : MulticastDto_wf ex_multicast = true) by reflexivity.
  assert (Hr : RegisterDto_wf ex_info = true) by reflexivity.
  assert (Hf : FileDto_wf ex_file = true) by reflexivity.
  split; [exact Hm|]. split; [exact Hr|]. split; [exact Hf|].
  exact (proj1 (dto_roundtrip ex_multicast ex_info ex_file Hm Hr Hf)).
Defined.

(** ** The multicast scanner *)

(** C6, counterexample: a datagram that is not JSON, received while
    scanning, ends the scan with an error instead of being skipped. *)
Lemma scan_parse_error_counterexample :
  ~ (forall (self : MulticastDeviceScanner.t) devices payload ip port polls,
       (exists e, MulticastDeviceScanner.from_slice payload = Err e) ->
       MulticastDeviceScanner.scan_loop self devices
         (MulticastDeviceScanner.mkPoll false (MulticastDeviceScanner.RecvFrom payload ip port)
          :: polls)
       = MulticastDeviceScanner.scan_loop self devices polls).
Proof.
  intros H.
  specialize (H ex_scanner [] MulticastDeviceScanner.NotJson "10.0.0.2" 53317%Z []).
  simpl in H.
  assert (E : Returned (Err (IoJson (DeErr "expected value")))
              = (Pending : Outcome (result (list Device.t) IoError))).
  { apply H. eexists; reflexivity. }
  discriminate E.
Qed.

(** C6 (amended): in a turn of the scan loop (the loop condition holds), a
    datagram whose payload does not parse as a RegisterDto ends [scan] with
    that error, while a receive error (no datagram ready included) is not
    propagated: the loop sleeps and polls again with the same peers. *)
Theorem scan_parse_error_aborts_recv_error_retries
    (self : MulticastDeviceScanner.t) (devices : list Device.t)
    (p : MulticastDeviceScanner.Poll) (polls : list MulticastDeviceScanner.Poll)
    (Hc : MulticastDeviceScanner.elapsed_2s p = false \/ devices = []) :
  (forall payload ip port e,
     MulticastDeviceScanner.recv p = MulticastDeviceScanner.RecvFrom payload ip port ->
     MulticastDeviceScanner.from_slice payload = Err e ->
     MulticastDeviceScanner.scan_loop self devices (p :: polls) = Returned (Err e))
  /\ (forall e,
     MulticastDeviceScanner.recv p = MulticastDeviceScanner.RecvError e ->
     MulticastDeviceScanner.scan_loop self devices (p :: polls)
     = MulticastDeviceScanner.scan_loop self devices polls).
Proof.
  assert (Hcond : negb (negb (MulticastDeviceScanner.elapsed_2s p)
                        || match devices with [] => true | _ => false end) = false).
  { destruct Hc as [H | H]; rewrite H; [reflexivity|].
    rewrite orb_true_r. reflexivity. }
  split.
  - intros payload ip port e Hr Hp. simpl. rewrite Hcond, Hr, Hp. reflexivity.
  - intros e Hr. simpl. rewrite Hcond, Hr. reflexivity.
Qed.

Lemma scan_parse_error_aborts_recv_error_retries_witness :
  MulticastDeviceScanner.scan_loop ex_scanner []
    [MulticastDeviceScanner.mkPoll false
       (MulticastDeviceScanner.RecvFrom MulticastDeviceScanner.NotJson "10.0.0.2" 53317)]
  = Returned (Err (IoJson (DeErr "expected value"))).
Proof.
  apply (proj1 (scan_parse_error_aborts_recv_error_retries ex_scanner []
                  (MulticastDeviceScanner.mkPoll false
                     (MulticastDeviceScanner.RecvFrom MulticastDeviceScanner.NotJson
                        "10.0.0.2" 53317)) [] (or_introl eq_refl))
           MulticastDeviceScanner.NotJson "10.0.0.2" 53317%Z); reflexivity.
Defined.

(** C7, counterexample: a socket error on the announcement makes
    [send_announcement] panic (its [assert!]). *)
Lemma send_announcement_counterexample :
  MulticastDeviceScanner.send_announcement ex_scanner
    (MulticastDeviceScanner.SendFailed (IoOs "network unreachable")) = Panicked
  /\ MulticastDeviceScanner.send_announcement ex_scanner (MulticastDeviceScanner.Sent 1)
     = Panicked.
Proof. split; vm_compute; reflexivity. Qed.

(** C7 (amended): [send_announcement] returns normally exactly when the
    UDP send succeeds and sends the whole message; on a socket error or a
    partial send its assertion fails and it panics. *)
Theorem send_announcement_panics_unless_full_send
    (self : MulticastDeviceScanner.t) (r : MulticastDeviceScanner.SendToResult) :
  (MulticastDeviceScanner.send_announcement self r = Returned tt
   <-> r = MulticastDeviceScanner.Sent (String.length (MulticastDeviceScanner.announce_msg self)))
  /\ (MulticastDeviceScanner.send_announcement self r = Panicked
   <-> r <> MulticastDeviceScanner.Sent (String.length (MulticastDeviceScanner.announce_msg self))).
Proof.
  unfold MulticastDeviceScanner.send_announcement.
  destruct r as [n | e]; simpl.
  - destruct (Nat.eqb_spec n (String.length (MulticastDeviceScanner.announce_msg self))) as [E|E].
    + subst. split; split; intros H; try reflexivity; try discriminate; congruence.
    + split; split; intros H; try discriminate; try reflexivity.
      * inversion H; contradiction.
      * intros H'; inversion H'; contradiction.
  - split; split; intros H; try discriminate; try reflexivity.
Qed.

(** C8 (code_bug): [MulticastDto::v2] fills [version], [port] and
    [protocol] but puts the flag in the v1 field [announcement] and leaves
    the v2 field [announce] empty, so the datagram carries
    ["announce":null]. *)
Theorem multicast_v2_leaves_announce_unset
    (alias : string) (device_model : option string) (device_type : DeviceType)
    (fingerprint : string) (port : Z) (announcement : bool) :
  let d := MulticastDto.v2 alias device_model device_type fingerprint port announcement in
  MulticastDto.version d = Some "2.0"
  /\ MulticastDto.port d = Some port
  /\ MulticastDto.protocol d = Some Http
  /\ MulticastDto.announcement d = Some announcement
  /\ MulticastDto.announce d = None
  /\ field "announce" (match ser_MulticastDto d with JObj fs => fs | _ => [] end)
     = Ok (Some JNull).
Proof. simpl. repeat split. Qed.

(** ** The upload checks *)

Ltac destruct_matches :=
  repeat match goal with
         | |- context [match ?x with _ => _ end] =>
             lazymatch x with
             | context [match _ with _ => _ end] => fail
             | _ => destruct x eqn:?
             end
         end.

Lemma upload_check_ok_v2 rs ip q x :
  upload_check rs ip q true = Ok x ->
  hm_get "sessionId" q = Some (ReceiveSession.session_id rs).
Proof.
  unfold upload_check, bind, ok_or. destruct_matches; try discriminate.
  intros _.
  match goal with
  | H : String.eqb _ (ReceiveSession.session_id _) = true |- _ => apply String.eqb_eq in H
  end.
  congruence.
Qed.

Lemma upload_check_session_id rs ip q v2 :
  upload_check rs ip q v2 = Err InvalidSessionId ->
  v2 = true /\ exists sid, hm_get "sessionId" q = Some sid
                           /\ sid <> ReceiveSession.session_id rs.
Proof.
  unfold upload_check, bind, ok_or. destruct_matches; try discriminate;
    intros _; split; auto; eexists; split; [reflexivity|];
    apply String.eqb_neq; assumption.
Qed.

(** C9. A v2 upload without [sessionId] is never accepted, and once the
    earlier checks pass (session present, sender's IP, state [Sending],
    [fileId] and [token] given) it fails with [InvalidParameters] (400);
    [InvalidSessionId] (403) comes only from a v2 request whose [sessionId]
    is present and differs from the session's; a v1 upload's result does not
    depend on [sessionId] at all. *)
Theorem upload_session_id_handling (st : ServerState.t) (ip : string)
    (q : list (string * string)) :
  (hm_get "sessionId" q = None ->
     (forall acc, fst (upload_begin st ip q true) <> Ok acc)
     /\ (forall rs,
           ServerState.receive_session st = Some rs ->
           ip = Device.ip (ReceiveSession.sender rs) ->
           ReceiveSession.status rs = ReceiveSessionStatus.Sending ->
           hm_get "fileId" q <> None -> hm_get "token" q <> None ->
           fst (upload_begin st ip q true) = Err (Receive InvalidParameters)
           /\ status_code (Receive InvalidParameters) = 400%Z))
  /\ (forall v2,
        fst (upload_begin st ip q v2) = Err (Receive InvalidSessionId) ->
        v2 = true
        /\ exists rs sid, ServerState.receive_session st = Some rs
                          /\ hm_get "sessionId" q = Some sid
                          /\ sid <> ReceiveSession.session_id rs)
  /\ (forall q',
        (forall k, k <> "sessionId" -> hm_get k q = hm_get k q') ->
        upload_begin st ip q false = upload_begin st ip q' false).
Proof.
  split; [|split].
  - intros Hs. split.
    + intros acc. unfold upload_begin.
      destruct (ServerState.receive_session st) as [rs|]; simpl; [|discriminate].
      destruct (upload_check rs ip q true) as [[fid rf]|e] eqn:Hc; simpl; [|discriminate].
      apply upload_check_ok_v2 in Hc. congruence.
    + intros rs Hrs Hip Hst Hf Ht. split; [|reflexivity].
      unfold upload_begin. rewrite Hrs.
      unfold upload_check, bind, ok_or.
      rewrite Hip, String.eqb_refl, Hst. simpl.
      destruct (hm_get "fileId" q); [|contradiction].
      destruct (hm_get "token" q); [|contradiction].
      rewrite Hs. reflexivity.
  - intros v2. unfold upload_begin.
    destruct (ServerState.receive_session st) as [rs|] eqn:Hrs; simpl; [|discriminate].
    destruct (upload_check rs ip q v2) as [[fid rf]|e] eqn:Hc; simpl; [discriminate|].
    intros E. inversion E; subst.
    destruct (upload_check_session_id _ _ _ _ Hc) as [Hv [sid [H1 H2]]].
    split; [exact Hv|]. exists rs, sid. auto.
  - intros q' Hq. unfold upload_begin, upload_check.
    rewrite (Hq "fileId") by discriminate.
    rewrite (Hq "token") by discriminate.
    reflexivity.
Qed.

(** ** The streaming loop *)

Lemma save_loop_stop rf tx path chunks : forall pos fs sent,
  let '(o, fs', _) := save_loop rf tx path pos chunks fs sent in
  match stop_chunk chunks with
  | Some (ReadErr _, _) => o = Returned (Err (Receive Cancelled)) /\ fs' = fs_remove path fs
  | Some (ReadOk (S _), WriteErr _) => o = Panicked /\ fs' = fs
  | _ => o = Returned (Ok tt) /\ fs' = fs
  end.
Proof.
  induction chunks as [|[r w] chunks IH]; intros pos fs sent; simpl.
  - auto.
  - destruct r as [[|n]|e]; simpl; auto.
    destruct w; simpl; auto.
    apply IH.
Qed.

Lemma in_fs_create path fs : In path (fs_create path fs).
Proof.
  unfold fs_create. destruct (existsb (String.eqb path) fs) eqn:E.
  - apply existsb_exists in E as [x [Hx Hy]]. apply String.eqb_eq in Hy. subst. exact Hx.
  - apply in_or_app. right. left. reflexivity.
Qed.

Lemma not_in_fs_remove path fs : ~ In path (fs_remove path fs).
Proof.
  unfold fs_remove. rewrite filter_In. intros [_ H].
  rewrite String.eqb_refl in H. discriminate.
Qed.

(** C10. Once the destination file is created, a failing write in the
    loop panics (the [unwrap]) and leaves the partial file in place; the
    handler's error path that deletes the partial file and yields
    [Cancelled] is taken exactly when the loop stops at a read error of the
    request body. *)
Theorem save_file_write_error_panics (acc : Accepted.t) (env : SaveEnv.t)
    (fs : list string) (Hc : SaveEnv.create_result env = Ok tt) :
  let '(o, fs', _) := save_file acc env fs in
  (forall n e, stop_chunk (SaveEnv.chunks env) = Some (ReadOk (S n), WriteErr e) ->
     o = Panicked /\ In (saved_path acc) fs')
  /\ (o = Returned (Err (Receive Cancelled))
      <-> exists e w, stop_chunk (SaveEnv.chunks env) = Some (ReadErr e, w))
  /\ (~ In (saved_path acc) fs'
      <-> exists e w, stop_chunk (SaveEnv.chunks env) = Some (ReadErr e, w)).
Proof.
  unfold save_file. rewrite Hc. fold (saved_path acc).
  pose proof (save_loop_stop (Accepted.receiving_file acc) (Accepted.progress_tx acc)
                (saved_path acc) (SaveEnv.chunks env) 0%Z (fs_create (saved_path acc) fs) [])
    as Hl.
  destruct (save_loop _ _ _ _ _ _ _) as [[o fs'] sent].
  pose proof (in_fs_create (saved_path acc) fs) as Hin.
  pose proof (not_in_fs_remove (saved_path acc) (fs_create (saved_path acc) fs)) as Hout.
  destruct (stop_chunk (SaveEnv.chunks env)) as [[[[|n]|e] w]|] eqn:Hs;
    try destruct w as [|we];
    destruct Hl as [Ho Hf]; subst o fs'.
  all: try (destruct (SaveEnv.flush_result env)); cbv beta iota zeta.
  all: repeat split; intros;
    repeat match goal with H : exists _, _ |- _ => destruct H end;
    try discriminate; try (exfalso; auto; fail); eauto.
Qed.

Lemma save_file_write_error_panics_witness :
  let acc := Accepted.mk "F" (ReceivingFile.mk ex_file FileStatus.Sending None) "." None in
  let env := SaveEnv.mk (Ok tt) [(ReadOk 5, WriteErr (IoOs "disk full"))] (Ok tt) in
  SaveEnv.create_result env = Ok tt /\ fst (fst (save_file acc env [])) = Panicked.
Proof.
  intros acc env.
  assert (Hc : SaveEnv.create_result env = Ok tt) by reflexivity.
  split; [exact Hc|].
  pose proof (save_file_write_error_panics acc env [] Hc) as H.
  destruct (save_file acc env []) as [[o fs'] sent].
  destruct H as [Hw _].
  exact (proj1 (Hw 4 (IoOs "disk full") eq_refl)).
Defined.

(** ** The prepare-upload gate *)

Lemma prepare_blocked busy st ip dto sid ui uuid :
  busy = true \/ ServerState.receive_session st <> None ->
  prepare_upload busy st ip dto sid ui uuid = (Returned (Err (Receive SessionBlocked)), st).
Proof.
  intros H. unfold prepare_upload.
  destruct busy; [reflexivity|].
  destruct H as [H|H]; [discriminate|].
  destruct (ServerState.receive_session st); [reflexivity | contradiction].
Qed.

Lemma prepare_ok_installs busy st ip dto sid ui uuid r :
  fst (prepare_upload busy st ip dto sid ui uuid) = Returned (Ok r) ->
  has_sending_session (snd (prepare_upload busy st ip dto sid ui uuid)).
Proof.
  unfold prepare_upload.
  destruct busy; [discriminate|].
  destruct (ServerState.receive_session st); [discriminate|].
  destruct (PrepareUploadRequestDto.files dto) as [|f fs]; [discriminate|].
  destruct (Settings.quick_save (ServerState.settings st));
    [|destruct ui as [|[[tx sel|]|]]]; simpl; try discriminate;
    try (destruct sel; [discriminate|]);
    intros _; eexists; split; reflexivity.
Qed.

Lemma guard_keeps_sending st :
  has_sending_session st -> guard_cleanup st = st.
Proof.
  intros [rs [H1 H2]]. unfold guard_cleanup. rewrite H1, H2. reflexivity.
Qed.

Lemma run_prepares_sending st evs :
  has_sending_session st -> filter succeeded (run_prepares st evs) = [].
Proof.
  revert st. induction evs as [|[a|] evs IH]; intros st Hs; simpl.
  - reflexivity.
  - rewrite prepare_blocked.
    + simpl. apply IH. exact Hs.
    + right. destruct Hs as [rs [H _]]. rewrite H. discriminate.
  - rewrite guard_keeps_sending by exact Hs. apply IH. exact Hs.
Qed.

(** C3. In every sequence of prepare-upload attempts against one receiver
    (interleaved with the guards' cleanup tasks), at most one succeeds; an
    attempt that succeeds leaves a session in state [Sending] installed;
    and every attempt that finds the lock taken or a session installed
    fails with [SessionBlocked] (409) and leaves the state as it was. *)
Theorem prepare_upload_at_most_one (st : ServerState.t) (evs : list PrepareEvent) :
  length (filter succeeded (run_prepares st evs)) <= 1
  /\ Forall (fun r : prepare_record =>
       let '(pre, a, o, post) := r in
       (Attempt.lock_busy a = true \/ ServerState.receive_session pre <> None) ->
       o = Returned (Err (Receive SessionBlocked)) /\ post = pre
       /\ status_code (Receive SessionBlocked) = 409%Z)
     (run_prepares st evs)
  /\ Forall (fun r : prepare_record =>
       let '(_, _, o, post) := r in
       (exists x, o = Returned (Ok x)) -> has_sending_session post)
     (run_prepares st evs).
Proof.
  revert st. induction evs as [|[a|] evs IH]; intros st; simpl.
  - repeat split; auto.
  - destruct (prepare_upload (Attempt.lock_busy a) st (Attempt.addr_ip a)
                (Attempt.dto a) (Attempt.session_id a) (Attempt.ui a)
                (Attempt.uuid a)) as [o st'] eqn:E.
    destruct (IH st') as [Hlen [Hblk Hins]].
    assert (Hi : (exists x, o = Returned (Ok x)) -> has_sending_session st').
    { intros [x Hx]. subst o.
      pose proof (prepare_ok_installs (Attempt.lock_busy a) st (Attempt.addr_ip a)
                    (Attempt.dto a) (Attempt.session_id a) (Attempt.ui a)
                    (Attempt.uuid a) x) as P.
      rewrite E in P. apply P. reflexivity. }
    split; [|split].
    + destruct o as [[x|e]| |] eqn:Eo; simpl; try exact Hlen.
      rewrite run_prepares_sending by (apply Hi; eexists; reflexivity).
      simpl. lia.
    + constructor; [|exact Hblk].
      intros Hb. rewrite prepare_blocked in E by exact Hb.
      inversion E; subst. auto.
    + constructor; [exact Hi | exact Hins].
  - apply IH.
Qed.

Example ex_second_attempt_blocked :
  map (fun r : prepare_record => let '(_, _, o, _) := r in o)
    (run_prepares ex_state0
       [PrepareAttempt (ex_attempt false "S1"); GuardRuns;
        PrepareAttempt (ex_attempt false "S2"); PrepareAttempt (ex_attempt true "S3")])
  = [Returned (Ok (PrepareUploadResponseDto.mk "S1" [("F", "tok0")]));
     Returned (Err (Receive SessionBlocked));
     Returned (Err (Receive SessionBlocked))].
Proof. reflexivity. Qed.

(** ** One-shot tokens *)

Lemma hm_get_insert {V} (k k' : string) (v : V) m :
  hm_get k (hm_insert k' v m) = if String.eqb k' k then Some v else hm_get k m.
Proof.
  induction m as [|[k0 v0] m IH]; simpl.
  - destruct (String.eqb k' k); reflexivity.
  - destruct (String.eqb_spec k0 k') as [E|E]; simpl.
    + subst k0. destruct (String.eqb k' k); reflexivity.
    + rewrite IH. destruct (String.eqb_spec k0 k) as [E'|E']; [|reflexivity].
      subst k0. destruct (String.eqb_spec k' k); [congruence | reflexivity].
Qed.

Lemma consumed_step s0 fid st st' :
  rstep st st' -> ServerState.receive_session st' <> None ->
  consumed s0 fid st -> consumed s0 fid st'.
Proof.
  intros Hs Hn Hc. destruct Hc as [rs [rf [Hrs [Hid [Hsd [Hst [Hget Htok]]]]]]].
  destruct Hs as [busy st ip dto sid ui uuid | st ip q v2 | st fid' r | st].
  - rewrite prepare_blocked by (right; rewrite Hrs; discriminate).
    exists rs, rf. auto 7.
  - unfold upload_begin in *. rewrite Hrs in *.
    destruct (upload_check rs ip q v2) as [[fid' rf0]|e]; simpl in *;
      [|exists rs, rf; auto 7].
    destruct (String.eqb fid' fid) eqn:Ef.
    + exists (ReceiveSession.set_files
                (hm_insert fid' (ReceivingFile.mk (ReceivingFile.file rf0) FileStatus.Sending None)
                   (ReceiveSession.files rs)) rs),
             (ReceivingFile.mk (ReceivingFile.file rf0) FileStatus.Sending None).
      simpl. rewrite hm_get_insert, Ef. auto 7.
    + exists (ReceiveSession.set_files
                (hm_insert fid' (ReceivingFile.mk (ReceivingFile.file rf0) FileStatus.Sending None)
                   (ReceiveSession.files rs)) rs), rf.
      simpl. rewrite hm_get_insert, Ef. auto 7.
  - unfold upload_finish in *. rewrite Hrs in *.
    destruct (hm_get fid' (ReceiveSession.files rs)) as [rf0|] eqn:Hg;
      [|exists rs, rf; auto 7].
    destruct (match r with
              | Ok _ => (Ok tt, FileStatus.Finished)
              | Err _ => (Err (Receive SaveFileFailed), FileStatus.Failed)
              end) as [res status].
    set (rf1 := ReceivingFile.mk (ReceivingFile.file rf0) status (ReceivingFile.token rf0)) in *.
    destruct (forallb _ _); simpl in *; [congruence|].
    destruct (String.eqb fid' fid) eqn:Ef.
    + apply String.eqb_eq in Ef. subst fid'. rewrite Hget in Hg. inversion Hg; subst rf0.
      exists (ReceiveSession.set_files (hm_insert fid rf1 (ReceiveSession.files rs)) rs), rf1.
      simpl. rewrite hm_get_insert, String.eqb_refl. auto 7.
    + exists (ReceiveSession.set_files (hm_insert fid' rf1 (ReceiveSession.files rs)) rs), rf.
      simpl. rewrite hm_get_insert, Ef. auto 7.
  - unfold guard_cleanup in *. rewrite Hrs in *.
    destruct (ReceiveSessionStatus.eqb _ _); simpl in *; [congruence|].
    exists rs, rf. auto 7.
Qed.

Lemma consumed_in_session s0 fid st st' :
  in_session st st' -> consumed s0 fid st -> consumed s0 fid st'.
Proof.
  induction 1 as [st | st st' st'' Hs Hn _ IH]; intros Hc; [exact Hc|].
  apply IH. exact (consumed_step s0 fid st st' Hs Hn Hc).
Qed.

Lemma upload_check_ok_inv rs ip q v2 fid rf :
  upload_check rs ip q v2 = Ok (fid, rf) ->
  ip = Device.ip (ReceiveSession.sender rs)
  /\ ReceiveSession.status rs = ReceiveSessionStatus.Sending
  /\ hm_get "fileId" q = Some fid
  /\ (exists tok, hm_get "token" q = Some tok)
  /\ (v2 = true -> hm_get "sessionId" q = Some (ReceiveSession.session_id rs)).
Proof.
  unfold upload_check, bind, ok_or. destruct_matches; try discriminate.
  all: intros E; inversion E; subst.
  all: repeat match goal with
       | H : String.eqb _ _ = true |- _ => apply String.eqb_eq in H
       end.
  all: repeat split; eauto; try discriminate.
  all: try (match goal with
            | H : ReceiveSessionStatus.eqb ?s _ = true |- _ => destruct s; [discriminate | reflexivity]
            end).
  all: intros; congruence.
Qed.

Lemma upload_check_consumed rs ip q v2 fid rf :
  hm_get "fileId" q = Some fid ->
  hm_get fid (ReceiveSession.files rs) = Some rf ->
  ReceivingFile.token rf = None ->
  forall x, upload_check rs ip q v2 <> Ok x.
Proof.
  intros Hq Hg Ht x. unfold upload_check, bind, ok_or. rewrite Hq, Hg, Ht.
  destruct_matches; discriminate.
Qed.

(** C4. Let an upload request be accepted (its token checked and cleared)
    in some state. Along every interleaving of further critical sections
    (prepare attempts, uploads of any file, the ends of uploads, guard
    cleanups) during which a receive session stays installed, no upload
    request naming the same file is accepted again, and replaying the
    identical request fails with [InvalidToken] (403). *)
Theorem upload_token_one_shot (st : ServerState.t) (ip : string)
    (q : list (string * string)) (v2 : bool) (acc : Accepted.t)
    (st1 st2 : ServerState.t)
    (Hacc : upload_begin st ip q v2 = (Ok acc, st1))
    (Hsteps : in_session st1 st2) :
  (forall ip' q' v2' acc',
     hm_get "fileId" q' = Some (Accepted.file_id acc) ->
     fst (upload_begin st2 ip' q' v2') <> Ok acc')
  /\ fst (upload_begin st2 ip q v2) = Err (Receive InvalidToken)
  /\ status_code (Receive InvalidToken) = 403%Z.
Proof.
  unfold upload_begin in Hacc.
  destruct (ServerState.receive_session st) as [rs|] eqn:Hrs; [|discriminate].
  destruct (upload_check rs ip q v2) as [[fid rf]|e] eqn:Hc; [|discriminate].
  inversion Hacc; subst acc st1; clear Hacc; simpl.
  set (rf' := ReceivingFile.mk (ReceivingFile.file rf) FileStatus.Sending None).
  assert (H1 : consumed rs fid
                 (ServerState.set_receive_session
                    (Some (ReceiveSession.set_files
                             (hm_insert fid rf' (ReceiveSession.files rs)) rs)) st)).
  { exists (ReceiveSession.set_files (hm_insert fid rf' (ReceiveSession.files rs)) rs), rf'.
    simpl. rewrite hm_get_insert, String.eqb_refl. auto 7. }
  destruct (consumed_in_session rs fid _ _ Hsteps H1)
    as [rs2 [rf2 [Hrs2 [Hid [Hsd [Hst [Hget Htok]]]]]]].
  destruct (upload_check_ok_inv _ _ _ _ _ _ Hc) as [Hip [Hsend [Hf [[tok Ht] Hsid]]]].
  unfold upload_begin. rewrite Hrs2.
  split; [|split; [|reflexivity]].
  - intros ip' q' v2' acc' Hq'.
    pose proof (upload_check_consumed rs2 ip' q' v2' fid rf2 Hq' Hget Htok) as Hn.
    destruct (upload_check rs2 ip' q' v2') as [x|e]; simpl.
    + exfalso. exact (Hn x eq_refl).
    + discriminate.
  - unfold upload_check, bind, ok_or.
    rewrite Hsd, <- Hip, String.eqb_refl, Hst, Hsend. simpl.
    rewrite Hf, Ht.
    destruct v2.
    + rewrite (Hsid eq_refl), Hid, String.eqb_refl. simpl.
      rewrite Hget, Htok. reflexivity.
    + rewrite Hget, Htok. reflexivity.
Qed.

Lemma upload_token_one_shot_witness :
  upload_begin ex_state1 "10.0.0.2" ex_query true = (Ok ex_accepted, ex_state2)
  /\ fst (upload_begin ex_state2 "10.0.0.2" ex_query true) = Err (Receive InvalidToken).
Proof.
  assert (Hacc : upload_begin ex_state1 "10.0.0.2" ex_query true
                 = (Ok ex_accepted, ex_state2)) by (vm_compute; reflexivity).
  split; [exact Hacc|].
  exact (proj1 (proj2 (upload_token_one_shot ex_state1 "10.0.0.2" ex_query true
                         ex_accepted ex_state2 ex_state2 Hacc (in_session_refl ex_state2)))).
Defined.

(** * Further properties of the code *)

(** ** Routes, devices and discovery *)

(** X1: the six routes registered by [start_api_server] are pairwise
    distinct: no two operations share a v1 path or a v2 path, and no v1
    path is a v2 path. *)
Theorem api_routes_distinct (a b : ApiRoute.t) :
  (ApiRoute.v1 a = ApiRoute.v1 b -> a = b)
  /\ (ApiRoute.v2 a = ApiRoute.v2 b -> a = b)
  /\ ApiRoute.v1 a <> ApiRoute.v2 b.
Proof.
  destruct a, b; vm_compute; repeat split; intro H;
    solve [reflexivity | discriminate | inversion H].
Qed.

Lemma Device_eqb_refl (d : Device.t) : Device_eqb d d = true.
Proof.
  destruct d as [ip v p h fp al m dt dl]. unfold Device_eqb; simpl.
  rewrite !String.eqb_refl, Z.eqb_refl, !eqb_reflx.
  destruct m as [m|]; simpl; [rewrite String.eqb_refl|]; destruct dt; reflexivity.
Qed.

(** X2: a device described by [RegisterDto::from] (the [info] a send
    session sends), written as JSON and read back, is turned by
    [to_device] at the device's own address into the same device. *)
Theorem register_dto_from_device_roundtrip (d : Device.t) (own_port : Z) (own_https : bool)
    (Hport : u16_ok (Device.port d) = true) :
  exists r, de_RegisterDto (ser_RegisterDto (RegisterDto.from d)) = Ok r
            /\ RegisterDto.to_device r (Device.ip d) own_port own_https = d.
Proof.
  exists (RegisterDto.from d). split.
  - apply RegisterDto_roundtrip. exact Hport.
  - destruct d as [ip v p h fp al m dt dl]. destruct h; reflexivity.
Qed.

(** X3: the announcement of another instance of this program (the JSON of
    [MulticastDeviceScanner::new(peer, http_port)]), received by [scan]
    from [ip]:[src_port], is read as a [RegisterDto] and gives the device
    at [ip] with version "2.0", the announced HTTP port, plain http and
    type headless; it is added unless already listed. A datagram carrying
    the scanner's own fingerprint is skipped. This holds for announcements
    that fit [scan]'s receive buffer of 2048 bytes ([Hfit]); a longer one
    (a long alias) reaches [from_slice] cut short. *)
Theorem scan_discovers_peer (self : MulticastDeviceScanner.t) (peer : Device.t)
    (http_port : Z) (ip : string) (src_port : Z) (devices : list Device.t)
    (e2s : bool) (polls : list MulticastDeviceScanner.Poll)
    (Hport : u16_ok http_port = true)
    (Hfit : (String.length (MulticastDeviceScanner.announce_msg
                              (MulticastDeviceScanner.new peer http_port))
             <= MulticastDeviceScanner.buf_len)%nat)
    (Hloop : e2s = false \/ devices = []) :
  let msg := ser_MulticastDto (MulticastDeviceScanner.device
                                 (MulticastDeviceScanner.new peer http_port)) in
  let dev := {| Device.ip := ip; Device.version := "2.0"; Device.port := http_port;
                Device.https := false; Device.fingerprint := Device.fingerprint peer;
                Device.alias := Device.alias peer;
                Device.device_model := Device.device_model peer;
                Device.device_type := Headless; Device.download := false |} in
  MulticastDeviceScanner.scan_loop self devices
    (MulticastDeviceScanner.mkPoll e2s
       (MulticastDeviceScanner.RecvFrom (MulticastDeviceScanner.JsonText msg) ip src_port)
       :: polls)
  = if String.eqb (Device.fingerprint peer)
         (MulticastDto.fingerprint (MulticastDeviceScanner.device self))
    then MulticastDeviceScanner.scan_loop self devices polls
    else if existsb (Device_eqb dev) devices
    then MulticastDeviceScanner.scan_loop self devices polls
    else MulticastDeviceScanner.scan_loop self (app devices [dev]) polls.
Proof.
  intros msg dev.
  assert (Hc : negb (negb e2s || match devices with [] => true | _ => false end) = false).
  { destruct Hloop as [H | H]; subst; [reflexivity|].
    rewrite orb_true_r. reflexivity. }
  assert (Hd : MulticastDeviceScanner.from_slice (MulticastDeviceScanner.JsonText msg)
               = Ok (RegisterDto.mk (Device.alias peer) (Some "2.0") (Device.device_model peer)
                       (Some Headless) (Device.fingerprint peer) (Some http_port)
                       (Some Http) None)).
  { subst msg. destruct peer as [pip v p h fp al m dt dl]. simpl.
    unfold de_RegisterDto. cbn.
    destruct m as [m|]; cbn; rewrite Hport; reflexivity. }
  cbn [MulticastDeviceScanner.scan_loop MulticastDeviceScanner.elapsed_2s
       MulticastDeviceScanner.recv].
  rewrite Hc, Hd. reflexivity.
Qed.

(** X4: when [scan] returns a list of devices, the list is not empty,
    lists no device twice, and holds no device with the scanner's own
    fingerprint. *)
Theorem scan_result_nonempty_nodup_not_self (self : MulticastDeviceScanner.t)
    (announce : MulticastDeviceScanner.SendToResult)
    (polls : list MulticastDeviceScanner.Poll) (ds : list Device.t)
    (Hscan : MulticastDeviceScanner.scan self announce polls = Returned (Ok ds)) :
  ds <> [] /\ NoDup ds
  /\ (forall d, In d ds ->
        Device.fingerprint d <> MulticastDto.fingerprint (MulticastDeviceScanner.device self)).
Proof.
  unfold MulticastDeviceScanner.scan in Hscan.
  destruct (MulticastDeviceScanner.send_announcement self announce); try discriminate.
  set (own := MulticastDto.fingerprint (MulticastDeviceScanner.device self)).
  assert (Hgen : forall polls devices,
    NoDup devices -> (forall d, In d devices -> Device.fingerprint d <> own) ->
    MulticastDeviceScanner.scan_loop self devices polls = Returned (Ok ds) ->
    ds <> [] /\ NoDup ds /\ (forall d, In d ds -> Device.fingerprint d <> own)).
  { clear Hscan. induction polls0 as [|p polls' IH]; intros devices Hnd Hfp Hl;
      simpl in Hl; [discriminate|]. fold own in Hl.
    destruct (negb (negb (MulticastDeviceScanner.elapsed_2s p)
                    || match devices with [] => true | _ => false end)) eqn:Ec.
    - inversion Hl; subst ds.
      destruct devices; [rewrite orb_true_r in Ec; discriminate|].
      split; [discriminate|]. auto.
    - destruct (MulticastDeviceScanner.recv p) as [payload ip port|e];
        [|exact (IH _ Hnd Hfp Hl)].
      destruct (MulticastDeviceScanner.from_slice payload) as [r|e]; [|discriminate].
      destruct (String.eqb (RegisterDto.fingerprint r) own) eqn:Ef;
        [exact (IH _ Hnd Hfp Hl)|].
      destruct (existsb (Device_eqb (RegisterDto.to_device r ip port false)) devices) eqn:Ee;
        [exact (IH _ Hnd Hfp Hl)|].
      apply (IH (app devices [RegisterDto.to_device r ip port false])); [| |exact Hl].
      + apply NoDup_app; [exact Hnd | constructor; [intros []|constructor] |].
        intros x Hx [Hy|[]]. subst x.
        assert (existsb (Device_eqb (RegisterDto.to_device r ip port false)) devices = true)
          by (apply existsb_exists; eexists; split; [exact Hx | apply Device_eqb_refl]).
        congruence.
      + intros d Hd. apply in_app_or in Hd. destruct Hd as [Hd|[Hd|[]]]; [auto|].
        subst d. simpl. intro Heq. rewrite Heq, String.eqb_refl in Ef. discriminate. }
  apply (Hgen polls []); [constructor | intros d [] | exact Hscan].
Qed.

(** ** The receive engine *)

Lemma issue_files_nil uuid i m : issue_files uuid i [] m = m.
Proof. reflexivity. Qed.

Lemma issue_files_cons uuid i f l m :
  issue_files uuid i (f :: l) m
  = issue_files uuid (S i) l
      (hm_insert (FileDto.id f) (ReceivingFile.mk f FileStatus.Queue (Some (uuid i))) m).
Proof. reflexivity. Qed.

Lemma prepare_ok_inv busy st ip dto sid ui uuid resp st1 :
  prepare_upload busy st ip dto sid ui uuid = (Returned (Ok resp), st1) ->
  exists sel tx,
    sel <> []
    /\ (Settings.quick_save (ServerState.settings st) = true ->
        sel = map snd (PrepareUploadRequestDto.files dto))
    /\ busy = false
    /\ ServerState.receive_session st = None
    /\ st1 = ServerState.mk (ServerState.settings st)
               (Some {| ReceiveSession.session_id := sid;
                        ReceiveSession.status := ReceiveSessionStatus.Sending;
                        ReceiveSession.sender :=
                          RegisterDto.to_device (PrepareUploadRequestDto.info dto)
                            ip DEFAULT_PORT false;
                        ReceiveSession.files := issue_files uuid 0 sel [];
                        ReceiveSession.destination_directory :=
                          Settings.destination (ServerState.settings st);
                        ReceiveSession.progress_tx := tx |})
    /\ resp = PrepareUploadResponseDto.mk sid (response_tokens (issue_files uuid 0 sel [])).
Proof.
  unfold prepare_upload.
  destruct busy; [discriminate|].
  destruct (ServerState.receive_session st) eqn:Hrs; [discriminate|].
  destruct (PrepareUploadRequestDto.files dto) as [|f fs] eqn:Hf; [discriminate|].
  destruct (Settings.quick_save (ServerState.settings st)) eqn:Hq;
    [|destruct ui as [|[[tx sel|]|]]]; simpl; try discriminate.
  - intros H. inversion H; subst.
    exists (map snd (f :: fs)), None.
    repeat split; try reflexivity; try discriminate.
  - destruct sel as [|x xs]; [discriminate|].
    intros H. inversion H; subst.
    exists (x :: xs), (Some tx).
    repeat split; try reflexivity; try discriminate; intros; congruence.
Qed.

Lemma issue_files_get uuid l : forall i m k rf,
  hm_get k (issue_files uuid i l m) = Some rf ->
  (ReceivingFile.status rf = FileStatus.Queue /\ exists t, ReceivingFile.token rf = Some t)
  \/ hm_get k m = Some rf.
Proof.
  induction l as [|f l IH]; intros i m k rf H.
  - right. exact H.
  - rewrite issue_files_cons in H. apply IH in H. destruct H as [H|H]; [left; exact H|].
    rewrite hm_get_insert in H. destruct (String.eqb (FileDto.id f) k).
    + inversion H; subst. left. split; [reflexivity | eexists; reflexivity].
    + right. exact H.
Qed.


Lemma hm_insert_keys {V} (k : string) (v : V) m x :
  In x (map fst (hm_insert k v m)) <-> x = k \/ In x (map fst m).
Proof.
  induction m as [|[k0 v0] m IH]; simpl.
  - split; [intros [H|[]]; left; congruence | intros [H|[]]; left; congruence].
  - destruct (String.eqb_spec k0 k) as [E|E]; simpl.
    + subst k0. split; [intros [H|H]; [left; congruence | right; right; exact H]|].
      intros [H|[H|H]]; [left; congruence | left; exact H | right; exact H].
    + rewrite IH. split.
      * intros [H|[H|H]]; [right; left; exact H | left; exact H | right; right; exact H].
      * intros [H|[H|H]]; [right; left; exact H | left; exact H | right; right; exact H].
Qed.

Lemma hm_insert_nodup {V} (k : string) (v : V) m :
  NoDup (map fst m) -> NoDup (map fst (hm_insert k v m)).
Proof.
  induction m as [|[k0 v0] m IH]; simpl; intros Hnd.
  - constructor; [intros [] | constructor].
  - inversion Hnd as [|? ? Hn Hnd']; subst.
    destruct (String.eqb_spec k0 k) as [E|E]; simpl.
    + subst k0. constructor; assumption.
    + constructor; [|apply IH; exact Hnd'].
      rewrite hm_insert_keys. intros [H|H]; [exact (E H) | exact (Hn H)].
Qed.

Lemma issue_files_nodup uuid l : forall i m,
  NoDup (map fst m) -> NoDup (map fst (issue_files uuid i l m)).
Proof.
  induction l as [|f l IH]; intros i m Hnd; [exact Hnd|].
  rewrite issue_files_cons. apply IH. apply hm_insert_nodup. exact Hnd.
Qed.

Lemma hm_get_In {V} (k : string) (v : V) m : hm_get k m = Some v -> In (k, v) m.
Proof.
  induction m as [|[k0 v0] m IH]; simpl; [discriminate|].
  destruct (String.eqb_spec k0 k) as [E|E]; intros H.
  - inversion H; subst. left. reflexivity.
  - right. apply IH. exact H.
Qed.

Lemma hm_get_of_In {V} (k : string) (v : V) m :
  NoDup (map fst m) -> In (k, v) m -> hm_get k m = Some v.
Proof.
  induction m as [|[k0 v0] m IH]; simpl; [intros _ []|].
  intros Hnd [H|H]; inversion Hnd as [|? ? Hn Hnd']; subst.
  - inversion H; subst. rewrite String.eqb_refl. reflexivity.
  - destruct (String.eqb_spec k0 k) as [E|E].
    + subst k0. exfalso. apply Hn. apply (in_map fst) in H. exact H.
    + apply IH; assumption.
Qed.

Lemma response_tokens_get k m :
  hm_get k (response_tokens m)
  = option_map (fun f => match ReceivingFile.token f with Some t => t | None => EmptyString end)
               (hm_get k m).
Proof.
  induction m as [|[k0 f0] m IH]; simpl; [reflexivity|].
  destruct (String.eqb k0 k); [reflexivity | exact IH].
Qed.

Lemma response_tokens_keys m : map fst (response_tokens m) = map fst m.
Proof. induction m as [|[k0 f0] m IH]; simpl; [reflexivity | rewrite IH; reflexivity]. Qed.

(** X5: an upload request that is rejected leaves the shared state as it
    was (no token is consumed, no status changes) and is answered with a
    4xx status. *)
Theorem upload_begin_rejection_changes_nothing (st : ServerState.t) (ip : string)
    (q : list (string * string)) (v2 : bool) (e : Error) (st1 : ServerState.t)
    (H : upload_begin st ip q v2 = (Err e, st1)) :
  st1 = st /\ (400 <= http_status (Err e) < 500)%Z.
Proof.
  unfold upload_begin in H.
  destruct (ServerState.receive_session st) as [rs|];
    [|inversion H; subst; split; [reflexivity | simpl; lia]].
  destruct (upload_check rs ip q v2) as [[fid rf]|e'] eqn:Hc; [discriminate|].
  inversion H; subst. split; [reflexivity|].
  revert Hc. unfold upload_check, bind, ok_or. destruct_matches; intros Hc; inversion Hc; subst; simpl; lia.
Qed.

(** X6: after a prepare-upload that succeeds, an upload request from the
    same address naming a file id of the response with the token the
    response gives for it is accepted, on the v2 route (with the
    response's session id) as on the v1 route. *)
Theorem prepare_then_upload_accepted (busy : bool) (st : ServerState.t) (ip : string)
    (dto : PrepareUploadRequestDto.t) (sid : string) (ui : UiReply) (uuid : nat -> string)
    (resp : PrepareUploadResponseDto.t) (st1 : ServerState.t) (fid tok : string)
    (Hp : prepare_upload busy st ip dto sid ui uuid = (Returned (Ok resp), st1))
    (Ht : hm_get fid (PrepareUploadResponseDto.files resp) = Some tok) :
  (exists acc st2,
     upload_begin st1 ip [("fileId", fid); ("token", tok);
                          ("sessionId", PrepareUploadResponseDto.session_id resp)] true
     = (Ok acc, st2) /\ Accepted.file_id acc = fid)
  /\ (exists acc st2,
     upload_begin st1 ip [("fileId", fid); ("token", tok)] false = (Ok acc, st2)
     /\ Accepted.file_id acc = fid).
Proof.
  apply prepare_ok_inv in Hp.
  destruct Hp as [sel [tx [_ [_ [_ [_ [-> ->]]]]]]].
  cbn [PrepareUploadResponseDto.files] in Ht. rewrite response_tokens_get in Ht.
  destruct (hm_get fid (issue_files uuid 0 sel [])) as [rf|] eqn:Hg; [|discriminate].
  simpl in Ht.
  destruct (issue_files_get uuid sel 0 [] fid rf Hg) as [[_ [t Htok]]|H]; [|discriminate].
  rewrite Htok in Ht. inversion Ht; subst t.
  split; do 2 eexists; split.
  1,3: unfold upload_begin, upload_check, bind, ok_or; cbn -[issue_files];
     rewrite ?String.eqb_refl, Hg; cbn -[issue_files]; rewrite Htok; cbn -[issue_files];
     rewrite ?String.eqb_refl; reflexivity.
  all: reflexivity.
Qed.


(** X8: a prepare-upload that neither succeeds nor is blocked leaves no
    receive session once the cleanup task its guard spawns has run,
    whether it failed, was declined or panicked. *)
Theorem prepare_failure_then_guard_leaves_no_session (busy : bool) (st : ServerState.t)
    (ip : string) (dto : PrepareUploadRequestDto.t) (sid : string) (ui : UiReply)
    (uuid : nat -> string) o (st1 : ServerState.t)
    (Hp : prepare_upload busy st ip dto sid ui uuid = (o, st1))
    (Hok : forall resp, o <> Returned (Ok resp))
    (Hb : o <> Returned (Err (Receive SessionBlocked))) :
  ServerState.receive_session (guard_cleanup st1) = None.
Proof.
  unfold prepare_upload in Hp.
  destruct busy; [inversion Hp; subst; congruence|].
  destruct (ServerState.receive_session st) eqn:Hrs; [inversion Hp; subst; congruence|].
  destruct (PrepareUploadRequestDto.files dto).
  { inversion Hp; subst. unfold guard_cleanup. rewrite Hrs. exact Hrs. }
  destruct (Settings.quick_save (ServerState.settings st));
    [|destruct ui as [|[[tx sel|]|]]]; simpl in Hp; try (destruct sel);
    inversion Hp; subst; try (exfalso; eapply Hok; reflexivity); reflexivity.
Qed.

Lemma hm_insert_In {V} (fid : string) (v : V) m k x :
  NoDup (map fst m) ->
  In (k, x) (hm_insert fid v m) <-> (k = fid /\ x = v) \/ (In (k, x) m /\ k <> fid).
Proof.
  induction m as [|[k0 v0] m IH]; simpl; intros Hnd.
  - split; [intros [H|[]]; inversion H; subst; left; auto | intros [[-> ->]|[[] _]]; left; reflexivity].
  - inversion Hnd as [|? ? Hn Hnd']; subst.
    destruct (String.eqb_spec k0 fid) as [E|E]; simpl.
    + subst k0. split.
      * intros [H|H]; [inversion H; subst; left; auto|].
        right. split; [right; exact H|]. intros ->. apply Hn. apply (in_map fst) in H. exact H.
      * intros [[-> ->]|[[H|H] Hk]]; [left; reflexivity | inversion H; subst; contradiction | right; exact H].
    + rewrite IH by exact Hnd'. split.
      * intros [H|[H|H]]; [inversion H; subst; right; auto | left; exact H | right; split; [right|]; apply H].
      * intros [H|[[H|H] Hk]]; [right; left; exact H | left; exact H | right; right; split; assumption].
Qed.

(** X9: when an upload finishes in a session whose files have distinct
    ids, it answers [Ok] exactly when the save succeeded (else
    [SaveFileFailed]), and it ends the session exactly when every other
    file of the session is already [Finished] or [Failed]. *)
Theorem upload_finish_ends_session_when_all_done (st : ServerState.t) (fid : string)
    (r : result unit Error) (res : result unit Error) (st' : ServerState.t)
    (rs : ReceiveSession.t) (rf : ReceivingFile.t)
    (Hs : ServerState.receive_session st = Some rs)
    (Hnd : NoDup (map fst (ReceiveSession.files rs)))
    (Hg : hm_get fid (ReceiveSession.files rs) = Some rf)
    (Hf : upload_finish st fid r = (res, st')) :
  res = match r with Ok _ => Ok tt | Err _ => Err (Receive SaveFileFailed) end
  /\ (ServerState.receive_session st' = None
      <-> forall k rf', In (k, rf') (ReceiveSession.files rs) -> k <> fid ->
                        is_terminal (ReceivingFile.status rf') = true).
Proof.
  unfold upload_finish in Hf. rewrite Hs, Hg in Hf.
  set (status := match r with Ok _ => FileStatus.Finished | Err _ => FileStatus.Failed end).
  assert (Hres : (match r with
                  | Ok _ => (Ok tt, FileStatus.Finished)
                  | Err _ => (Err (Receive SaveFileFailed), FileStatus.Failed)
                  end : result unit Error * FileStatus.t)
                 = (match r with Ok _ => Ok tt | Err _ => Err (Receive SaveFileFailed) end,
                    status)) by (subst status; destruct r; reflexivity).
  rewrite Hres in Hf. clear Hres.
  assert (Ht : is_terminal status = true) by (subst status; destruct r; reflexivity).
  set (rf' := ReceivingFile.mk (ReceivingFile.file rf) status (ReceivingFile.token rf)) in Hf.
  set (fin := forallb (fun kv => is_terminal (ReceivingFile.status (snd kv)))
                 (ReceiveSession.files
                    (ReceiveSession.set_files (hm_insert fid rf' (ReceiveSession.files rs)) rs)))
    in Hf.
  inversion Hf; subst res st'. split; [reflexivity|]. simpl.
  transitivity (fin = true); [destruct fin; split; congruence|].
  subst fin. simpl. rewrite forallb_forall. split.
  - intros H k x Hin Hk. apply (H (k, x)). apply hm_insert_In; [exact Hnd|].
    right. split; assumption.
  - intros H [k x] Hin. apply hm_insert_In in Hin; [|exact Hnd].
    destruct Hin as [[-> ->]|[Hin Hk]]; [exact Ht|]. exact (H k x Hin Hk).
Qed.

(** X10: once the destination file is created, [save_file] either ends
    in [Cancelled] (the body failed) with the file removed, or ends in
    [Ok] or in an IO error of the final flush with the file left in
    place. *)
Theorem save_file_keeps_file_unless_cancelled (acc : Accepted.t) (env : SaveEnv.t)
    (fs : list string) (o : result unit Error) (fs' : list string)
    (sent : list UploadProgress.t)
    (Hc : SaveEnv.create_result env = Ok tt)
    (Hs : save_file acc env fs = (Returned o, fs', sent)) :
  (o = Err (Receive Cancelled) /\ ~ In (saved_path acc) fs')
  \/ ((o = Ok tt \/ exists e, o = Err (Io e)) /\ In (saved_path acc) fs').
Proof.
  unfold save_file in Hs. rewrite Hc in Hs. cbv zeta in Hs.
  change (path_join (Accepted.destination acc)
            (FileDto.file_name (ReceivingFile.file (Accepted.receiving_file acc))))
    with (saved_path acc) in Hs.
  pose proof (save_loop_stop (Accepted.receiving_file acc) (Accepted.progress_tx acc)
                (saved_path acc) (SaveEnv.chunks env) 0%Z (fs_create (saved_path acc) fs) [])
    as Hl.
  destruct (save_loop (Accepted.receiving_file acc) (Accepted.progress_tx acc)
              (saved_path acc) 0%Z (SaveEnv.chunks env) (fs_create (saved_path acc) fs) [])
    as [[o1 fs1] sent1].
  destruct (stop_chunk (SaveEnv.chunks env)) as [[[[|n]|e] [|we]]|];
    destruct Hl as [-> ->].
  all: try (inversion Hs; subst; left; split; [reflexivity | apply not_in_fs_remove]).
  all: try discriminate.
  all: destruct (SaveEnv.flush_result env) as [u|e']; inversion Hs; subst; right;
    (split; [| apply in_fs_create]).
  all: first [left; reflexivity | right; eexists; reflexivity].
Qed.

Lemma Sorted_snoc {A} (R : A -> A -> Prop) (l : list A) (x : A) :
  Sorted R l -> (forall y, In y l -> R y x) -> Sorted R (app l [x]).
Proof.
  induction l as [|a l IH]; simpl; intros Hs Hx.
  - constructor; constructor.
  - inversion Hs as [|? ? Hs' Hh]; subst. constructor.
    + apply IH; [exact Hs' | intros y Hy; apply Hx; right; exact Hy].
    + destruct l as [|b l]; simpl; constructor.
      * apply Hx. left. reflexivity.
      * inversion Hh; assumption.
Qed.

Lemma save_loop_progress rf tx path chunks : forall pos fs sent o fs' sent',
  save_loop rf tx path pos chunks fs sent = (o, fs', sent') ->
  (0 <= pos)%Z ->
  Sorted Z.lt (map UploadProgress.position sent) ->
  (forall p, In p sent ->
     (0 < UploadProgress.position p <= pos)%Z
     /\ UploadProgress.file_id p = FileDto.id (ReceivingFile.file rf)
     /\ UploadProgress.finish p
        = (UploadProgress.position p >=? FileDto.size (ReceivingFile.file rf))%Z) ->
  Sorted Z.lt (map UploadProgress.position sent')
  /\ (forall p, In p sent' ->
        (0 < UploadProgress.position p)%Z
        /\ UploadProgress.file_id p = FileDto.id (ReceivingFile.file rf)
        /\ UploadProgress.finish p
           = (UploadProgress.position p >=? FileDto.size (ReceivingFile.file rf))%Z).
Proof.
  induction chunks as [|[r w] chunks IH]; intros pos fs sent o fs' sent' H Hpos Hsort Hall;
    simpl in H.
  all: try (inversion H; subst; split; [exact Hsort | intros p Hp; destruct (Hall p Hp) as [[? ?] ?]; auto]).
  destruct r as [[|n]|e]; try (inversion H; subst; split; [exact Hsort | intros p Hp; destruct (Hall p Hp) as [[? ?] ?]; auto]).
  destruct w; [|inversion H; subst; split; [exact Hsort | intros p Hp; destruct (Hall p Hp) as [[? ?] ?]; auto]].
  apply IH in H; [exact H | lia | |].
  - destruct tx; [|exact Hsort].
    rewrite map_app. apply Sorted_snoc; [exact Hsort|].
    intros y Hy. apply in_map_iff in Hy. destruct Hy as [p [<- Hp]].
    destruct (Hall p Hp) as [[? ?] ?]. simpl. lia.
  - intros p Hp. destruct tx.
    + apply in_app_or in Hp. destruct Hp as [Hp|[<-|[]]].
      * destruct (Hall p Hp) as [[? ?] ?]. split; [lia | auto].
      * simpl. split; [lia | auto].
    + destruct (Hall p Hp) as [[? ?] ?]. split; [lia | auto].
Qed.

(** X11: the progress events [save_file] sends report strictly
    increasing, positive positions, all for the file being saved, each
    with [finish] set exactly when its position has reached the declared
    size. *)
Theorem save_file_progress_increasing (acc : Accepted.t) (env : SaveEnv.t) (fs : list string)
    o (fs' : list string) (sent : list UploadProgress.t)
    (Hs : save_file acc env fs = (o, fs', sent)) :
  Sorted Z.lt (map UploadProgress.position sent)
  /\ forall p, In p sent ->
       (0 < UploadProgress.position p)%Z
       /\ UploadProgress.file_id p
          = FileDto.id (ReceivingFile.file (Accepted.receiving_file acc))
       /\ UploadProgress.finish p
          = (UploadProgress.position p
             >=? FileDto.size (ReceivingFile.file (Accepted.receiving_file acc)))%Z.
Proof.
  unfold save_file in Hs. cbv zeta in Hs.
  destruct (SaveEnv.create_result env).
  2:{ inversion Hs; subst. split; [constructor | intros p []]. }
  destruct (save_loop (Accepted.receiving_file acc) (Accepted.progress_tx acc) _ 0%Z
              (SaveEnv.chunks env) _ []) as [[o1 fs1] sent1] eqn:E.
  apply save_loop_progress in E; [| lia | constructor | intros p []].
  destruct o1 as [[u|e]| |]; try (inversion Hs; subst; exact E).
  destruct (SaveEnv.flush_result env); inversion Hs; subst; exact E.
Qed.

(** ** The send engine *)

Lemma upload_progress_bounds file_id file_size chunks : forall uploaded,
  (0 <= uploaded <= file_size)%Z ->
  forall p, In p (SendSession.upload_progress file_id file_size uploaded chunks) ->
    (uploaded <= UploadProgress.position p <= file_size)%Z
    /\ UploadProgress.file_id p = file_id
    /\ UploadProgress.finish p = (UploadProgress.position p =? file_size)%Z.
Proof.
  induction chunks as [|[len|e] chunks IH]; intros u Hu p Hp; simpl in Hp; try contradiction.
  destruct Hp as [<-|Hp].
  - simpl. split; [lia|]. split; [reflexivity|].
    destruct (Z.geb_spec (Z.min (u + Z.of_nat len) file_size) file_size);
      destruct (Z.eqb_spec (Z.min (u + Z.of_nat len) file_size) file_size); lia.
  - apply IH in Hp; [|lia]. destruct Hp as [? ?]. split; [lia | assumption].
Qed.

(** X12: the progress events of a file [upload_file] streams (from
    position 0, for a size that is not negative) have non-decreasing
    positions within [0, size], all name that file, and say [finish]
    exactly at the position equal to the size. *)
Theorem upload_progress_capped (file_id : string) (file_size : Z) (chunks : list Chunk)
    (Hsize : (0 <= file_size)%Z) :
  Sorted Z.le (map UploadProgress.position
                 (SendSession.upload_progress file_id file_size 0 chunks))
  /\ forall p, In p (SendSession.upload_progress file_id file_size 0 chunks) ->
       (0 <= UploadProgress.position p <= file_size)%Z
       /\ UploadProgress.file_id p = file_id
       /\ UploadProgress.finish p = (UploadProgress.position p =? file_size)%Z.
Proof.
  split; [|intros p Hp; apply (upload_progress_bounds _ _ _ 0) in Hp; [exact Hp | lia]].
  cut (forall u, (0 <= u <= file_size)%Z ->
         Sorted Z.le (map UploadProgress.position
                        (SendSession.upload_progress file_id file_size u chunks)));
    [intros Hc; apply Hc; lia|].
  induction chunks as [|[len|e] chunks IH]; intros u Hu;
    simpl; try constructor.
  - apply IH. lia.
  - destruct (SendSession.upload_progress file_id file_size
                (Z.min (u + Z.of_nat len) file_size) chunks) as [|p ps] eqn:E;
      simpl; constructor.
    assert (Hp : In p (SendSession.upload_progress file_id file_size
                         (Z.min (u + Z.of_nat len) file_size) chunks))
      by (rewrite E; left; reflexivity).
    apply upload_progress_bounds in Hp; [|lia]. destruct Hp as [[? ?] _]. lia.
Qed.

(** X13: how the sender reads the status of the receiver's answer to a
    prepare-upload: a success is [Ok]; the receiver's [SessionBlocked],
    [SessionDeclined] and [NothingSelected] are [Busy], [Rejected] and
    [NothingSelected]; [EmptyFiles] (400) is [Unknown 400]; no other
    error is answered. *)
Theorem prepare_reply_as_seen_by_sender (busy : bool) (st : ServerState.t) (ip : string)
    (dto : PrepareUploadRequestDto.t) (sid : string) (ui : UiReply) (uuid : nat -> string)
    (o : result PrepareUploadResponseDto.t Error) (st1 : ServerState.t)
    (Hp : prepare_upload busy st ip dto sid ui uuid = (Returned o, st1)) :
  let sent := SendSession.prepare_status
                (http_status (match o with Ok _ => Ok tt | Err e => Err e end)) in
  (exists resp, o = Ok resp /\ sent = Ok tt)
  \/ (o = Err (Receive SessionBlocked) /\ sent = Err Busy)
  \/ (o = Err (Receive SessionDeclined) /\ sent = Err Rejected)
  \/ (o = Err (Receive NothingSelected) /\ sent = Err Send_NothingSelected)
  \/ (o = Err (Receive EmptyFiles) /\ sent = Err (Unknown 400)).
Proof.
  unfold prepare_upload in Hp.
  destruct busy; [inversion Hp; subst; right; left; split; reflexivity|].
  destruct (ServerState.receive_session st); [inversion Hp; subst; right; left; split; reflexivity|].
  destruct (PrepareUploadRequestDto.files dto).
  { inversion Hp; subst. do 4 right. split; reflexivity. }
  destruct (Settings.quick_save (ServerState.settings st));
    [|destruct ui as [|[[tx sel|]|]]]; simpl in Hp; try (destruct sel);
    inversion Hp; subst.
  all: first [ left; eexists; split; reflexivity
             | do 2 right; left; split; reflexivity
             | do 3 right; left; split; reflexivity ].
Qed.

Lemma hm_insert_fresh {V} (k : string) (v : V) m :
  ~ In k (map fst m) -> hm_insert k v m = app m [(k, v)].
Proof.
  induction m as [|[k0 v0] m IH]; simpl; intros Hn; [reflexivity|].
  destruct (String.eqb_spec k0 k) as [E|E]; [subst; exfalso; apply Hn; left; reflexivity|].
  rewrite IH; [reflexivity|]. intros H. apply Hn. right. exact H.
Qed.

Lemma de_string_entries_ser m : forall acc,
  NoDup (map fst (app acc m)) ->
  de_string_entries (map (fun '(k, s) => (k, JStr s)) m) acc = Ok (app acc m).
Proof.
  induction m as [|[k s] m IH]; intros acc Hnd; simpl.
  - rewrite app_nil_r. reflexivity.
  - rewrite map_app in Hnd. simpl in Hnd.
    rewrite hm_insert_fresh.
    + rewrite IH; [rewrite <- app_assoc; reflexivity|].
      rewrite <- app_assoc, map_app. exact Hnd.
    + intros H. apply (NoDup_remove_2 _ _ _ Hnd). apply in_or_app. left. exact H.
Qed.

Lemma de_string_map_ser m :
  NoDup (map fst m) -> de_string_map (ser_string_map m) = Ok m.
Proof. intros H. exact (de_string_entries_ser m [] H). Qed.

Lemma hm_insert_nonempty {V} (k : string) (v : V) m : hm_insert k v m <> [].
Proof. destruct m as [|[k0 v0] m]; simpl; [|destruct (String.eqb k0 k)]; discriminate. Qed.

Lemma issue_files_nonempty uuid l : forall i m,
  m <> [] -> issue_files uuid i l m <> [].
Proof.
  induction l as [|f l IH]; intros i m Hm; [exact Hm|].
  rewrite issue_files_cons. apply IH. apply hm_insert_nonempty.
Qed.

Lemma prepare_response_upload_prepare (busy : bool) (st : ServerState.t) (ip : string)
    (dto : PrepareUploadRequestDto.t) (sid : string) (ui : UiReply) (uuid : nat -> string)
    (resp : PrepareUploadResponseDto.t) (st1 : ServerState.t) (s : SendSession.t)
    (Hp : prepare_upload busy st ip dto sid ui uuid = (Returned (Ok resp), st1)) :
  SendSession.upload_prepare s (Ok 200%Z)
    (JsonBody (if String.eqb (Device.version (SendSession.target s)) PROTOCOL_VERSION_1
               then prepare_upload_v1_body resp else prepare_upload_v2_body resp))
  = Ok (SendSession.set_files
          (SendingFiles.update_token (SendSession.files s) (PrepareUploadResponseDto.files resp))
          (if String.eqb (Device.version (SendSession.target s)) PROTOCOL_VERSION_1 then s
           else SendSession.set_remote_session_id (Some sid) s)).
Proof.
  apply prepare_ok_inv in Hp.
  destruct Hp as [sel [tx [Hsel [_ [_ [_ [_ ->]]]]]]].
  set (tok := response_tokens (issue_files uuid 0 sel [])).
  assert (Hnd : NoDup (map fst tok))
    by (subst tok; rewrite response_tokens_keys; apply issue_files_nodup; constructor).
  assert (Hne : tok <> []).
  { subst tok. destruct sel as [|f l]; [contradiction|].
    rewrite issue_files_cons.
    pose proof (issue_files_nonempty uuid l 1 _ (hm_insert_nonempty (FileDto.id f)
                  (ReceivingFile.mk f FileStatus.Queue (Some (uuid 0))) [])) as H.
    destruct (issue_files uuid 1 l _) as [|[k x] r]; [contradiction | discriminate]. }
  clearbody tok.
  destruct (String.eqb (Device.version (SendSession.target s)) PROTOCOL_VERSION_1) eqn:Hv;
    unfold prepare_upload_v1_body, prepare_upload_v2_body, SendSession.upload_prepare,
      SendSession.read_file_token, bind;
    cbn -[de_string_map ser_string_map]; rewrite Hv.
  - cbn -[de_string_map ser_string_map]. rewrite (de_string_map_ser tok Hnd).
    destruct tok; [contradiction | reflexivity].
  - unfold de_PrepareUploadResponseDto, ser_PrepareUploadResponseDto, req_field, bind.
    cbn -[de_string_map ser_string_map]. rewrite (de_string_map_ser tok Hnd).
    destruct tok; [contradiction | reflexivity].
Qed.

(** X14: the token map of a successful prepare-upload, sent as the v1
    body (the map) when the target speaks protocol 1.0 and as the v2 body
    otherwise, is read back by the sender's [upload] (status 200) as
    exactly that map: it hands it to [update_token], and keeps the
    receiver's session id for v2. *)
Theorem prepare_response_reaches_sender (busy : bool) (st : ServerState.t) (ip : string)
    (dto : PrepareUploadRequestDto.t) (sid : string) (ui : UiReply) (uuid : nat -> string)
    (resp : PrepareUploadResponseDto.t) (st1 : ServerState.t) (s : SendSession.t)
    (Hp : prepare_upload busy st ip dto sid ui uuid = (Returned (Ok resp), st1)) :
  SendSession.upload_prepare s (Ok 200%Z)
    (JsonBody (if String.eqb (Device.version (SendSession.target s)) PROTOCOL_VERSION_1
               then prepare_upload_v1_body resp else prepare_upload_v2_body resp))
  = Ok (SendSession.set_files
          (SendingFiles.update_token (SendSession.files s) (PrepareUploadResponseDto.files resp))
          (if String.eqb (Device.version (SendSession.target s)) PROTOCOL_VERSION_1 then s
           else SendSession.set_remote_session_id (Some sid) s)).
Proof.
  exact (prepare_response_upload_prepare busy st ip dto sid ui uuid resp st1 s Hp).
Qed.

(** X15: after [update_token], every file the sender holds keeps its
    description and path, and is either [Sending] with the token the
    receiver gave for its id, or [Skipped] when the receiver gave none; so
    the ["No file token"] [expect] of [upload_file] cannot fire for a file
    the upload task does not skip. *)
Theorem update_token_marks_files (self : SendingFiles.t) (tok : list (string * string))
    (id : string) (f' : SendingFile.t)
    (Hin : In (id, f') (SendingFiles.files (SendingFiles.update_token self tok))) :
  (exists f, In (id, f) (SendingFiles.files self)
             /\ SendingFile.file f' = SendingFile.file f
             /\ SendingFile.path f' = SendingFile.path f)
  /\ match hm_get id tok with
     | Some tk => SendingFile.status f' = FileStatus.Sending /\ SendingFile.token f' = Some tk
     | None => SendingFile.status f' = FileStatus.Skipped
     end
  /\ (SendingFile.status f' <> FileStatus.Skipped ->
      forall rsid target, exists url, SendSession.upload_url rsid f' target = Returned url).
Proof.
  unfold SendingFiles.update_token in Hin. simpl in Hin.
  apply in_map_iff in Hin. destruct Hin as [[id0 f] [Heq Hin]].
  inversion Heq; subst id0. clear Heq.
  destruct (hm_get id tok) as [tk|] eqn:Ht; subst f'.
  - split; [exists f; split; [exact Hin | split; reflexivity]|].
    split; [split; reflexivity|].
    intros _ rsid target. unfold SendSession.upload_url. simpl. eexists. reflexivity.
  - split; [exists f; split; [exact Hin | split; reflexivity]|].
    split; [reflexivity|]. intros H. exfalso. apply H. reflexivity.
Qed.

Lemma lhm_modify_get {V} (k : string) (g : V -> V) m id :
  hm_get id (lhm_modify k g m)
  = if String.eqb k id then option_map g (hm_get id m) else hm_get id m.
Proof.
  induction m as [|[k0 v0] m IH]; simpl; [destruct (String.eqb k id); reflexivity|].
  destruct (String.eqb_spec k0 k) as [E|E]; simpl.
  - subst k0. destruct (String.eqb k id); reflexivity.
  - rewrite IH. destruct (String.eqb_spec k0 id) as [E'|E'].
    + subst k0. destruct (String.eqb_spec k id); [congruence | reflexivity].
    + reflexivity.
Qed.

Lemma FileStatus_eqb_true a b : FileStatus.eqb a b = true -> a = b.
Proof. destruct a, b; simpl; congruence. Qed.

Lemma upload_task_spec out (Hret : forall id, exists r, out id = Returned r) : forall l s,
  NoDup (map fst l) ->
  (forall id f, In (id, f) l -> SendingFiles.get (SendSession.files s) id = Some f) ->
  exists fs',
    SendSession.upload_task l out (Some s) = (Returned tt, Some (SendSession.set_files fs' s))
    /\ (forall id, ~ In id (map fst l) ->
          SendingFiles.get fs' id = SendingFiles.get (SendSession.files s) id)
    /\ (forall id f, In (id, f) l ->
          exists f', SendingFiles.get fs' id = Some f'
            /\ SendingFile.file f' = SendingFile.file f
            /\ SendingFile.status f'
               = if FileStatus.eqb (SendingFile.status f) FileStatus.Skipped
                 then FileStatus.Skipped
                 else match out id with
                      | Returned (Ok _) => FileStatus.Finished
                      | _ => FileStatus.Failed
                      end).
Proof.
  induction l as [|[id0 f0] l IH]; intros s Hnd Hget.
  - exists (SendSession.files s). split; [destruct s; reflexivity|].
    split; [reflexivity | intros id f []].
  - simpl in Hnd. inversion Hnd as [|? ? Hn Hnd']; subst.
    simpl. destruct (FileStatus.eqb (SendingFile.status f0) FileStatus.Skipped) eqn:Hsk.
    + destruct (IH s Hnd') as [fs' [Hrun [Hout Hin]]];
        [intros id f H; apply Hget; right; exact H|].
      exists fs'. split; [exact Hrun|]. split.
      * intros id Hid. apply Hout. intros H. apply Hid. right. exact H.
      * intros id f [H|H].
        -- inversion H; subst id f. exists f0. rewrite Hout by exact Hn.
           split; [apply Hget; left; reflexivity|]. split; [reflexivity|].
           rewrite Hsk. apply FileStatus_eqb_true. exact Hsk.
        -- apply Hin. exact H.
    + destruct (Hret id0) as [r Hr]. rewrite Hr.
      set (st := if match r with Ok _ => true | Err _ => false end
                 then FileStatus.Finished else FileStatus.Failed).
      set (s1 := SendSession.set_files
                   (SendingFiles.to_finish_status (SendSession.files s) id0
                      match r with Ok _ => true | Err _ => false end) s).
      assert (Hg1 : forall id, SendingFiles.get (SendSession.files s1) id
                     = if String.eqb id0 id
                       then option_map (SendingFile.set_status st)
                              (SendingFiles.get (SendSession.files s) id)
                       else SendingFiles.get (SendSession.files s) id).
      { intros id. unfold SendingFiles.get. simpl. apply lhm_modify_get. }
      destruct (IH s1 Hnd') as [fs' [Hrun [Hout Hin]]].
      { intros id f H. rewrite Hg1. destruct (String.eqb_spec id0 id) as [E|E].
        - subst id0. exfalso. apply Hn. apply (in_map fst) in H. exact H.
        - apply Hget. right. exact H. }
      exists fs'. split; [exact Hrun|]. split.
      * intros id Hid. rewrite Hout by (intros H; apply Hid; right; exact H).
        rewrite Hg1. destruct (String.eqb_spec id0 id) as [E|E]; [|reflexivity].
        exfalso. apply Hid. left. exact E.
      * intros id f [H|H].
        -- inversion H; subst id f. rewrite Hout by exact Hn. rewrite Hg1, String.eqb_refl.
           rewrite (Hget id0 f0) by (left; reflexivity). simpl.
           eexists. split; [reflexivity|]. split; [reflexivity|].
           rewrite Hsk, Hr. subst st. destruct r; reflexivity.
        -- apply Hin. exact H.
Qed.

(** X16: when no upload of the task panics and the sender's files have
    distinct ids, the upload task ends with the session it finds in the
    state holding the same file descriptions, each [Skipped] file left
    [Skipped] and each other file [Finished] when its upload returned [Ok]
    and [Failed] otherwise. *)
Theorem upload_task_final_statuses (s : SendSession.t)
    (out : string -> Outcome (result unit Error))
    (Hnd : NoDup (map fst (SendingFiles.files (SendSession.files s))))
    (Hret : forall id, exists r, out id = Returned r) :
  exists fs',
    SendSession.upload_task (SendingFiles.files (SendSession.files s)) out (Some s)
    = (Returned tt, Some (SendSession.set_files fs' s))
    /\ forall id f, In (id, f) (SendingFiles.files (SendSession.files s)) ->
         exists f', SendingFiles.get fs' id = Some f'
           /\ SendingFile.file f' = SendingFile.file f
           /\ SendingFile.status f'
              = if FileStatus.eqb (SendingFile.status f) FileStatus.Skipped
                then FileStatus.Skipped
                else match out id with
                     | Returned (Ok _) => FileStatus.Finished
                     | _ => FileStatus.Failed
                     end.
Proof.
  destruct (upload_task_spec out Hret (SendingFiles.files (SendSession.files s)) s Hnd)
    as [fs' [Hrun [_ Hin]]].
  { intros id f H. apply hm_get_of_In; assumption. }
  exists fs'. split; assumption.
Qed.

(** X17: [cancel_v2] either refuses with [NoPermission], leaving the send
    session in place and the upload running, or it is given the
    [sessionId] the receiver issued to the installed session, which it
    then removes, aborting the upload when the session holds a cancel
    handle. A session without a remote session id (protocol v1) is never
    cancelled through it. *)
Theorem cancel_v2_only_matching_session (q : list (string * string))
    (ss : option SendSession.t) (r : result unit Error) (ss' : option SendSession.t)
    (aborted : bool)
    (H : cancel_v2 q ss = (r, ss', aborted)) :
  (r = Err (Send NoPermission) /\ ss' = ss /\ aborted = false)
  \/ (exists s id, ss = Some s /\ hm_get "sessionId" q = Some id
        /\ SendSession.remote_session_id s = Some id /\ ss' = None
        /\ (r, aborted) = match SendSession.cancel_token s with
                          | Some _ => (Ok tt, true)
                          | None => (Err (Send NoPermission), false)
                          end).
Proof.
  unfold cancel_v2 in H.
  destruct (hm_get "sessionId" q) as [id|] eqn:Hq; [|inversion H; subst; left; auto].
  destruct ss as [s|]; [|inversion H; subst; left; auto].
  simpl in H.
  destruct (SendSession.remote_session_id s) as [rid|] eqn:Hr; simpl in H;
    [|inversion H; subst; left; auto].
  destruct (String.eqb_spec rid id) as [E|E]; simpl in H; [|inversion H; subst; left; auto].
  subst rid. right. exists s, id. split; [reflexivity|].
  split; [first [exact Hq | reflexivity]|].
  split; [first [exact Hr | reflexivity]|].
  unfold SendSession.cancel_by_receiver, SendSession.cancel in H.
  destruct (SendSession.cancel_token s); inversion H; subst; split; reflexivity.
Qed.

(** X18: [cancel_v1] checks nothing about the request: it always takes the
    send session out of the state, and it succeeds, aborting the upload,
    exactly when a session with a cancel handle was installed. *)
Theorem cancel_v1_takes_any_session (ss : option SendSession.t) (r : result unit Error)
    (ss' : option SendSession.t) (aborted : bool)
    (H : cancel_v1 ss = (r, ss', aborted)) :
  ss' = None
  /\ (r = Ok tt <-> aborted = true)
  /\ (aborted = true <-> exists s c, ss = Some s /\ SendSession.cancel_token s = Some c).
Proof.
  unfold cancel_v1 in H. destruct ss as [s|].
  - unfold SendSession.cancel_by_receiver, SendSession.cancel in H.
    destruct (SendSession.cancel_token s) as [c|] eqn:Hc; inversion H; subst.
    + split; [reflexivity|]. split; [split; reflexivity|].
      split; [intros _; exists s, c; auto | reflexivity].
    + split; [reflexivity|]. split; [split; discriminate|].
      split; [discriminate|]. intros [s' [c [Hs Hc']]]. inversion Hs; subst. congruence.
  - inversion H; subst. split; [reflexivity|]. split; [split; discriminate|].
    split; [discriminate|]. intros [s' [c [Hs _]]]. discriminate.
Qed.

Lemma cancel_by_sender_spec (s : SendSession.t) (c : nat)
    (reply : result Z unit) (r : result unit Error) (aborted : bool)
    (Hc : SendSession.cancel_token s = Some c)
    (H : SendSession.cancel_by_sender s reply = (r, aborted)) :
  (aborted = true <-> exists status, reply = Ok status)
  /\ (r = Ok tt <-> reply = Ok 200%Z)
  /\ (reply = Ok 403%Z -> r = Err (Send NoPermission)).
Proof.
  unfold SendSession.cancel_by_sender, SendSession.cancel in H. rewrite Hc in H.
  destruct reply as [status|[]].
  - destruct (Z.eqb_spec status 200) as [E|E]; [|destruct (Z.eqb_spec status 403) as [E'|E']];
      inversion H; subst.
    + split; [split; [intros _; eexists; reflexivity | reflexivity]|].
      split; [split; reflexivity | discriminate].
    + split; [split; [intros _; eexists; reflexivity | reflexivity]|].
      split; [split; [discriminate | intros Hs; inversion Hs] | reflexivity].
    + split; [split; [intros _; eexists; reflexivity | reflexivity]|].
      split; [split; [discriminate | intros Hs; inversion Hs; contradiction]|].
      intros Hs. inversion Hs. contradiction.
  - inversion H; subst. split; [split; [discriminate | intros [st' Hs]; discriminate]|].
    split; [split; discriminate | discriminate].
Qed.

(** X19: a send session with a cancel handle, cancelled by the sender,
    aborts its upload exactly when the receiver answered the cancel request
    with some status (a transport error returns before the abort), and
    succeeds exactly when that status is 200. *)
Theorem cancel_by_sender_aborts_iff_answered (s : SendSession.t) (c : nat)
    (reply : result Z unit) (r : result unit Error) (aborted : bool)
    (Hc : SendSession.cancel_token s = Some c)
    (H : SendSession.cancel_by_sender s reply = (r, aborted)) :
  (aborted = true <-> exists status, reply = Ok status)
  /\ (r = Ok tt <-> reply = Ok 200%Z)
  /\ (reply = Ok 403%Z -> r = Err (Send NoPermission)).
Proof. exact (cancel_by_sender_spec s c reply r aborted Hc H). Qed.

Lemma lhm_insert_get {V} (k : string) (v : V) m : hm_get k (lhm_insert k v m) = Some v.
Proof.
  unfold lhm_insert. induction m as [|[k0 v0] m IH]; simpl.
  - rewrite String.eqb_refl. reflexivity.
  - destruct (String.eqb k0 k) eqn:E; simpl; [exact IH | rewrite E; exact IH].
Qed.

(** X20: a text added with [add_text] is found under its id, numbered
    with the count of files held before, with the byte length of the text
    as its size; its upload posts the text as the body when it was added
    with a preview, and panics ([unimplemented!]) when it was not, as for
    the texts of 1024 bytes or more that [main] adds. *)
Theorem add_text_upload_body (self : SendingFiles.t) (text : string) (preview : bool)
    (id text_hash : string) (open_result : result unit IoError) :
  exists sf,
    SendingFiles.get (SendingFiles.add_text self text preview id text_hash) id = Some sf
    /\ SendingFile.index sf = SendingFiles.len self
    /\ FileDto.size (SendingFile.file sf) = Z.of_nat (String.length text)
    /\ SendSession.upload_file_body sf open_result
       = if preview then Returned (Ok (Bytes text)) else Panicked.
Proof.
  eexists. split; [unfold SendingFiles.get, SendingFiles.add_text; simpl; apply lhm_insert_get|].
  split; [reflexivity|]. split; [reflexivity|].
  destruct preview; reflexivity.
Qed.

(** X21: once its body is built and its URL formed, [upload_file] reports
    success for the receiver's answer exactly when the receiver's upload
    ended in [Ok] or in [Cancelled], the one error the receiver answers
    with 200. *)
Theorem upload_file_reads_receiver_result (rsid : option string) (sf : SendingFile.t)
    (target : Device.t) (open_result : result unit IoError) (r : result unit Error)
    (b : UploadBody) (url : string)
    (Hb : SendSession.upload_file_body sf open_result = Returned (Ok b))
    (Hu : SendSession.upload_url rsid sf target = Returned url) :
  SendSession.upload_file rsid sf target open_result (Ok (http_status r)) = Returned (Ok tt)
  <-> r = Ok tt \/ r = Err (Receive Cancelled).
Proof.
  unfold SendSession.upload_file. rewrite Hb, Hu.
  destruct r as [[]|e]; [split; [intros _; left; reflexivity | reflexivity]|].
  destruct e as [e| |e|e|]; try destruct e; simpl.
  all: first [ split; [intros _; right; reflexivity | reflexivity]
             | split; [intros Hs; inversion Hs | intros [Hs|Hs]; inversion Hs] ].
Qed.

(** X22: the ctrl-c task of [main] always leaves the state without a send
    session, but it exits the process only when there was none or when
    the receiver answered the cancel request with 200; any other answer,
    or a transport error, makes its [expect] panic, and on a transport
    error the upload task is not even aborted. *)
Theorem ctrl_c_task_exits_only_on_200 (ss : option SendSession.t) (reply : result Z unit)
    (o : Outcome unit) (ss' : option SendSession.t) (aborted : bool)
    (H : ctrl_c_task ss reply = (o, ss', aborted)) :
  ss' = None
  /\ (o = Returned tt
      <-> ss = None \/ exists s c, ss = Some s /\ SendSession.cancel_token s = Some c
                                    /\ reply = Ok 200%Z)
  /\ (aborted = true
      <-> exists s c status, ss = Some s /\ SendSession.cancel_token s = Some c
                             /\ reply = Ok status).
Proof.
  unfold ctrl_c_task in H. destruct ss as [s|].
  2:{ inversion H; subst. split; [reflexivity|]. split; [split; [intros _; left; reflexivity | reflexivity]|].
      split; [discriminate | intros [s [c [st' [Hs _]]]]; discriminate]. }
  destruct (SendSession.cancel_by_sender s reply) as [r ab] eqn:Hc.
  destruct (SendSession.cancel_token s) as [c|] eqn:Ht.
  - pose proof (cancel_by_sender_spec s c reply r ab Ht Hc) as [Ha [Hr _]].
    destruct r as [u|e]; inversion H; subst.
    + split; [reflexivity|]. destruct u.
      split; [split; [intros _; right; exists s, c; split; [reflexivity|]; split; [exact Ht | apply Hr; reflexivity] | reflexivity]|].
      rewrite Ha. split; [intros [st' Hs]; exists s, c, st'; auto | intros [s' [c' [st' [Hs [_ Hst]]]]]; eexists; exact Hst].
    + split; [reflexivity|]. split.
      * split; [discriminate|]. intros [Hs|[s' [c' [Hs [_ Hst]]]]]; [discriminate|].
        inversion Hs; subst s'. apply Hr in Hst. discriminate.
      * rewrite Ha. split; [intros [st' Hs]; exists s, c, st'; auto | intros [s' [c' [st' [Hs [_ Hst]]]]]; eexists; exact Hst].
  - unfold SendSession.cancel_by_sender, SendSession.cancel in Hc. rewrite Ht in Hc.
    inversion Hc; subst. inversion H; subst. split; [reflexivity|]. split.
    + split; [discriminate|]. intros [Hs|[s' [c' [Hs [Hc' _]]]]]; [discriminate|].
      inversion Hs; subst s'. congruence.
    + split; [discriminate|]. intros [s' [c' [st' [Hs [Hc' _]]]]]. inversion Hs; subst s'. congruence.
Qed.



(** ** Witnesses of the further properties *)

Lemma register_dto_from_device_roundtrip_witness :
  u16_ok (Device.port ex_peer) = true
  /\ exists r, de_RegisterDto (ser_RegisterDto (RegisterDto.from ex_peer)) = Ok r
               /\ RegisterDto.to_device r (Device.ip ex_peer) 53318 true = ex_peer.
Proof.
  assert (H : u16_ok (Device.port ex_peer) = true) by reflexivity.
  split; [exact H|]. exact (register_dto_from_device_roundtrip ex_peer 53318 true H).
Defined.

Lemma scan_discovers_peer_witness :
  u16_ok 53317 = true
  /\ (String.length (MulticastDeviceScanner.announce_msg
                       (MulticastDeviceScanner.new ex_peer 53317))
      <= MulticastDeviceScanner.buf_len)%nat
  /\ MulticastDeviceScanner.scan_loop ex_scanner [] ex_peer_polls
     = MulticastDeviceScanner.scan_loop ex_scanner [ex_peer] ex_tail_polls.
Proof.
  assert (Hfit : (String.length (MulticastDeviceScanner.announce_msg
                                   (MulticastDeviceScanner.new ex_peer 53317))
                  <= MulticastDeviceScanner.buf_len)%nat)
    by (vm_compute; lia).
  split; [reflexivity|]. split; [exact Hfit|].
  exact (scan_discovers_peer ex_scanner ex_peer 53317 "10.0.0.3" 53317 [] false ex_tail_polls
           eq_refl Hfit (or_introl eq_refl)).
Defined.

Lemma scan_result_nonempty_nodup_not_self_witness :
  MulticastDeviceScanner.scan ex_scanner ex_announce ex_peer_polls = Returned (Ok [ex_peer])
  /\ NoDup [ex_peer].
Proof.
  assert (H : MulticastDeviceScanner.scan ex_scanner ex_announce ex_peer_polls
              = Returned (Ok [ex_peer])) by (vm_compute; reflexivity).
  split; [exact H|].
  exact (proj1 (proj2 (scan_result_nonempty_nodup_not_self ex_scanner ex_announce
                         ex_peer_polls [ex_peer] H))).
Defined.

Lemma upload_begin_rejection_changes_nothing_witness :
  upload_begin ex_state1 "10.0.0.9" ex_query true
  = (Err (Receive (InvalidIp "10.0.0.9")), ex_state1)
  /\ (400 <= http_status (Err (Receive (InvalidIp "10.0.0.9"))) < 500)%Z.
Proof.
  assert (H : upload_begin ex_state1 "10.0.0.9" ex_query true
              = (Err (Receive (InvalidIp "10.0.0.9")), ex_state1)) by (vm_compute; reflexivity).
  split; [exact H|].
  exact (proj2 (upload_begin_rejection_changes_nothing ex_state1 "10.0.0.9" ex_query true
                  _ ex_state1 H)).
Defined.

Lemma prepare_then_upload_accepted_witness :
  prepare_upload false ex_state0 "10.0.0.2" ex_request "S1" (UiRecv None) ex_uuid
  = (Returned (Ok ex_resp), ex_state1)
  /\ hm_get "F" (PrepareUploadResponseDto.files ex_resp) = Some "tok0"
  /\ exists acc st2,
       upload_begin ex_state1 "10.0.0.2" [("fileId", "F"); ("token", "tok0")] false
       = (Ok acc, st2) /\ Accepted.file_id acc = "F".
Proof.
  assert (Hp : prepare_upload false ex_state0 "10.0.0.2" ex_request "S1" (UiRecv None) ex_uuid
               = (Returned (Ok ex_resp), ex_state1)) by (vm_compute; reflexivity).
  assert (Ht : hm_get "F" (PrepareUploadResponseDto.files ex_resp) = Some "tok0")
    by reflexivity.
  split; [exact Hp|]. split; [exact Ht|].
  exact (proj2 (prepare_then_upload_accepted false ex_state0 "10.0.0.2" ex_request "S1"
                  (UiRecv None) ex_uuid ex_resp ex_state1 "F" "tok0" Hp Ht)).
Defined.


Lemma prepare_failure_then_guard_leaves_no_session_witness :
  prepare_upload false ex_state_manual "10.0.0.2" ex_request "S1" UiSendFailed ex_uuid
  = (Panicked, snd (prepare_upload false ex_state_manual "10.0.0.2" ex_request "S1"
                      UiSendFailed ex_uuid))
  /\ ServerState.receive_session
       (snd (prepare_upload false ex_state_manual "10.0.0.2" ex_request "S1"
               UiSendFailed ex_uuid)) <> None
  /\ ServerState.receive_session
       (guard_cleanup (snd (prepare_upload false ex_state_manual "10.0.0.2" ex_request "S1"
                              UiSendFailed ex_uuid))) = None.
Proof.
  assert (Hp : prepare_upload false ex_state_manual "10.0.0.2" ex_request "S1" UiSendFailed ex_uuid
               = (Panicked, snd (prepare_upload false ex_state_manual "10.0.0.2" ex_request "S1"
                                   UiSendFailed ex_uuid))) by (vm_compute; reflexivity).
  assert (Hok : forall resp, (Panicked : Outcome (result PrepareUploadResponseDto.t Error))
                             <> Returned (Ok resp)) by (intros resp H; discriminate H).
  assert (Hb : (Panicked : Outcome (result PrepareUploadResponseDto.t Error))
               <> Returned (Err (Receive SessionBlocked))) by (intros H; discriminate H).
  split; [exact Hp|]. split; [vm_compute; discriminate|].
  exact (prepare_failure_then_guard_leaves_no_session false ex_state_manual "10.0.0.2" ex_request
           "S1" UiSendFailed ex_uuid _ _ Hp Hok Hb).
Defined.

Lemma upload_finish_ends_session_when_all_done_witness :
  ServerState.receive_session ex_state2 = Some ex_rs2
  /\ NoDup (map fst (ReceiveSession.files ex_rs2))
  /\ hm_get "F" (ReceiveSession.files ex_rs2)
     = Some (ReceivingFile.mk ex_file FileStatus.Sending None)
  /\ upload_finish ex_state2 "F" (Ok tt) = (Ok tt, snd (upload_finish ex_state2 "F" (Ok tt)))
  /\ ServerState.receive_session (snd (upload_finish ex_state2 "F" (Ok tt))) = None.
Proof.
  assert (Hs : ServerState.receive_session ex_state2 = Some ex_rs2) by (vm_compute; reflexivity).
  assert (Hnd : NoDup (map fst (ReceiveSession.files ex_rs2)))
    by (simpl; constructor; [intros [] | constructor]).
  assert (Hg : hm_get "F" (ReceiveSession.files ex_rs2)
               = Some (ReceivingFile.mk ex_file FileStatus.Sending None)) by reflexivity.
  assert (Hf : upload_finish ex_state2 "F" (Ok tt)
               = (Ok tt, snd (upload_finish ex_state2 "F" (Ok tt)))) by (vm_compute; reflexivity).
  split; [exact Hs|]. split; [exact Hnd|]. split; [exact Hg|]. split; [exact Hf|].
  apply (proj2 (upload_finish_ends_session_when_all_done ex_state2 "F" (Ok tt) (Ok tt) _
                  ex_rs2 _ Hs Hnd Hg Hf)).
  intros k rf' Hin Hk. destruct Hin as [Hin|[]]. inversion Hin. subst k. contradiction.
Defined.

Lemma save_file_keeps_file_unless_cancelled_witness :
  SaveEnv.create_result ex_env_flush_failed = Ok tt
  /\ save_file ex_accepted ex_env_flush_failed []
     = (Returned (Err (Io (IoOs "disk full"))),
        snd (fst (save_file ex_accepted ex_env_flush_failed [])),
        snd (save_file ex_accepted ex_env_flush_failed []))
  /\ In (saved_path ex_accepted) (snd (fst (save_file ex_accepted ex_env_flush_failed []))).
Proof.
  assert (Hc : SaveEnv.create_result ex_env_flush_failed = Ok tt) by reflexivity.
  assert (Hs : save_file ex_accepted ex_env_flush_failed []
               = (Returned (Err (Io (IoOs "disk full"))),
                  snd (fst (save_file ex_accepted ex_env_flush_failed [])),
                  snd (save_file ex_accepted ex_env_flush_failed [])))
    by (vm_compute; reflexivity).
  split; [exact Hc|]. split; [exact Hs|].
  destruct (save_file_keeps_file_unless_cancelled ex_accepted ex_env_flush_failed [] _ _ _ Hc Hs)
    as [[H _]|[_ H]]; [discriminate H | exact H].
Defined.

Lemma save_file_progress_increasing_witness :
  save_file ex_accepted_tx ex_env_two_chunks []
  = (Returned (Ok tt), snd (fst (save_file ex_accepted_tx ex_env_two_chunks [])),
     [UploadProgress.mk "F" 4 false; UploadProgress.mk "F" 10 true])
  /\ Sorted Z.lt (map UploadProgress.position
                    [UploadProgress.mk "F" 4 false; UploadProgress.mk "F" 10 true]).
Proof.
  assert (Hs : save_file ex_accepted_tx ex_env_two_chunks []
               = (Returned (Ok tt), snd (fst (save_file ex_accepted_tx ex_env_two_chunks [])),
                  [UploadProgress.mk "F" 4 false; UploadProgress.mk "F" 10 true]))
    by (vm_compute; reflexivity).
  split; [exact Hs|].
  exact (proj1 (save_file_progress_increasing ex_accepted_tx ex_env_two_chunks [] _ _ _ Hs)).
Defined.

Lemma upload_progress_capped_witness :
  (0 <= 10)%Z
  /\ Sorted Z.le (map UploadProgress.position
                    (SendSession.upload_progress "F" 10 0 [ChunkOk 4; ChunkOk 8])).
Proof.
  assert (H : (0 <= 10)%Z) by lia.
  split; [exact H|]. exact (proj1 (upload_progress_capped "F" 10 [ChunkOk 4; ChunkOk 8] H)).
Defined.

Lemma prepare_reply_as_seen_by_sender_witness :
  prepare_upload true ex_state0 "10.0.0.2" ex_request "S1" (UiRecv None) ex_uuid
  = (Returned (Err (Receive SessionBlocked)), ex_state0)
  /\ SendSession.prepare_status (http_status (Err (Receive SessionBlocked))) = Err Busy.
Proof.
  assert (Hp : prepare_upload true ex_state0 "10.0.0.2" ex_request "S1" (UiRecv None) ex_uuid
               = (Returned (Err (Receive SessionBlocked)), ex_state0)) by reflexivity.
  split; [exact Hp|].
  pose proof (prepare_reply_as_seen_by_sender true ex_state0 "10.0.0.2" ex_request "S1"
                (UiRecv None) ex_uuid _ ex_state0 Hp) as T.
  cbv zeta in T.
  destruct T as [[resp [H _]]|[[_ H]|[[H _]|[[H _]|[H _]]]]]; try discriminate H; exact H.
Defined.

Lemma prepare_response_reaches_sender_witness :
  prepare_upload false ex_state0 "10.0.0.2" ex_request "S1" (UiRecv None) ex_uuid
  = (Returned (Ok ex_resp), ex_state1)
  /\ SendSession.upload_prepare ex_send (Ok 200%Z) (JsonBody (prepare_upload_v2_body ex_resp))
     = Ok (SendSession.set_files
             (SendingFiles.update_token (SendSession.files ex_send) [("F", "tok0")])
             (SendSession.set_remote_session_id (Some "S1") ex_send)).
Proof.
  assert (Hp : prepare_upload false ex_state0 "10.0.0.2" ex_request "S1" (UiRecv None) ex_uuid
               = (Returned (Ok ex_resp), ex_state1)) by (vm_compute; reflexivity).
  split; [exact Hp|].
  exact (prepare_response_reaches_sender false ex_state0 "10.0.0.2" ex_request "S1"
           (UiRecv None) ex_uuid ex_resp ex_state1 ex_send Hp).
Defined.

Lemma update_token_marks_files_witness :
  In ("T", ex_sending_text)
     (SendingFiles.files (SendingFiles.update_token ex_text_files [("T", "tk")]))
  /\ SendingFile.status ex_sending_text = FileStatus.Sending
  /\ SendingFile.token ex_sending_text = Some "tk".
Proof.
  assert (Hin : In ("T", ex_sending_text)
                   (SendingFiles.files (SendingFiles.update_token ex_text_files [("T", "tk")])))
    by (vm_compute; left; reflexivity).
  split; [exact Hin|].
  exact (proj1 (proj2 (update_token_marks_files ex_text_files [("T", "tk")] "T"
                         ex_sending_text Hin))).
Defined.

Lemma upload_task_final_statuses_witness :
  NoDup (map fst (SendingFiles.files (SendSession.files ex_send_running)))
  /\ (forall id, exists r, ex_out id = Returned r)
  /\ exists fs',
       SendSession.upload_task (SendingFiles.files (SendSession.files ex_send_running)) ex_out
         (Some ex_send_running)
       = (Returned tt, Some (SendSession.set_files fs' ex_send_running)).
Proof.
  assert (Hnd : NoDup (map fst (SendingFiles.files (SendSession.files ex_send_running))))
    by (vm_compute; constructor; [intros [] | constructor]).
  assert (Hret : forall id, exists r, ex_out id = Returned r)
    by (intros id; exists (Ok tt); reflexivity).
  split; [exact Hnd|]. split; [exact Hret|].
  destruct (upload_task_final_statuses ex_send_running ex_out Hnd Hret) as [fs' [H _]].
  exists fs'. exact H.
Defined.

Lemma cancel_v2_only_matching_session_witness :
  cancel_v2 [("sessionId", "R1")] (Some ex_send_running) = (Ok tt, None, true)
  /\ ((Ok tt = Err (Send NoPermission) /\ None = Some ex_send_running /\ true = false)
      \/ (exists s id, Some ex_send_running = Some s
            /\ hm_get "sessionId" [("sessionId", "R1")] = Some id
            /\ SendSession.remote_session_id s = Some id
            /\ (None : option SendSession.t) = None
            /\ ((Ok tt : result unit Error), true)
               = match SendSession.cancel_token s with
                 | Some _ => (Ok tt, true)
                 | None => (Err (Send NoPermission), false)
                 end)).
Proof.
  assert (H : cancel_v2 [("sessionId", "R1")] (Some ex_send_running) = (Ok tt, None, true))
    by (vm_compute; reflexivity).
  split; [exact H|].
  exact (cancel_v2_only_matching_session [("sessionId", "R1")] (Some ex_send_running)
           (Ok tt) None true H).
Defined.

Lemma cancel_v1_takes_any_session_witness :
  cancel_v1 (Some ex_send_running) = (Ok tt, None, true)
  /\ (true = true <-> exists s c, Some ex_send_running = Some s
                                  /\ SendSession.cancel_token s = Some c).
Proof.
  assert (H : cancel_v1 (Some ex_send_running) = (Ok tt, None, true))
    by (vm_compute; reflexivity).
  split; [exact H|].
  exact (proj2 (proj2 (cancel_v1_takes_any_session (Some ex_send_running) (Ok tt) None true H))).
Defined.

Lemma cancel_by_sender_aborts_iff_answered_witness :
  SendSession.cancel_token ex_send_running = Some 7
  /\ SendSession.cancel_by_sender ex_send_running (Ok 403%Z) = (Err (Send NoPermission), true)
  /\ (true = true <-> exists status, (Ok 403%Z : result Z unit) = Ok status).
Proof.
  assert (Hc : SendSession.cancel_token ex_send_running = Some 7) by reflexivity.
  assert (H : SendSession.cancel_by_sender ex_send_running (Ok 403%Z)
              = (Err (Send NoPermission), true)) by (vm_compute; reflexivity).
  split; [exact Hc|]. split; [exact H|].
  exact (proj1 (cancel_by_sender_aborts_iff_answered ex_send_running 7 (Ok 403%Z) _ _ Hc H)).
Defined.

Lemma upload_file_reads_receiver_result_witness :
  SendSession.upload_file_body ex_sending_text (Ok tt) = Returned (Ok (Bytes "hi"))
  /\ SendSession.upload_url (Some "R1") ex_sending_text ex_peer = Returned ex_upload_url
  /\ SendSession.upload_file (Some "R1") ex_sending_text ex_peer (Ok tt)
       (Ok (http_status (Err (Receive Cancelled)))) = Returned (Ok tt).
Proof.
  assert (Hb : SendSession.upload_file_body ex_sending_text (Ok tt) = Returned (Ok (Bytes "hi")))
    by (vm_compute; reflexivity).
  assert (Hu : SendSession.upload_url (Some "R1") ex_sending_text ex_peer = Returned ex_upload_url)
    by (vm_compute; reflexivity).
  split; [exact Hb|]. split; [exact Hu|].
  apply (proj2 (upload_file_reads_receiver_result (Some "R1") ex_sending_text ex_peer (Ok tt)
                  (Err (Receive Cancelled)) _ _ Hb Hu)).
  right. reflexivity.
Defined.

Lemma ctrl_c_task_exits_only_on_200_witness :
  ctrl_c_task (Some ex_send_running) (Err tt) = (Panicked, None, false)
  /\ (false = true <-> exists s c status, Some ex_send_running = Some s
                                          /\ SendSession.cancel_token s = Some c
                                          /\ (Err tt : result Z unit) = Ok status).
Proof.
  assert (H : ctrl_c_task (Some ex_send_running) (Err tt) = (Panicked, None, false))
    by (vm_compute; reflexivity).
  split; [exact H|].
  exact (proj2 (proj2 (ctrl_c_task_exits_only_on_200 (Some ex_send_running) (Err tt)
                         _ _ _ H))).
Defined.

